(** * The document ingestion and retrieval pipeline

    A shallow embedding of [backend/services/document_processor.py] and
    [backend/database/vector_store.py], and the properties of the
    pipeline that the specification states about them.

    The Python code talks to three libraries that are not part of the
    repository: PyPDF2 (text extraction), langchain's
    [RecursiveCharacterTextSplitter] and a Chroma collection.  They are
    parameters of the development; a small in-memory instance at the end
    of the definitions lets every statement be evaluated. *)

From Stdlib Require Import String Ascii List Bool Arith ZArith Lia.
From Stdlib Require Import Permutation DecimalString DecimalNat DecimalZ FinFun.
Import ListNotations.
Open Scope string_scope.

(** ** Python strings *)

Module PyStr.

(** [str.isspace] on one character, for code points below 256. *)
Definition isspace (c : ascii) : bool :=
  let n := nat_of_ascii c in
  (Nat.leb 9 n && Nat.leb n 13) || (Nat.leb 28 n && Nat.leb n 32)
  || Nat.eqb n 133 || Nat.eqb n 160.

Fixpoint lstrip (s : string) : string :=
  match s with
  | EmptyString => EmptyString
  | String c r => if isspace c then lstrip r else s
  end.

Fixpoint rev (s : string) : string :=
  match s with
  | EmptyString => EmptyString
  | String c r => rev r ++ String c EmptyString
  end.

Definition rstrip (s : string) : string := rev (lstrip (rev s)).

(** [s.strip()] *)
Definition strip (s : string) : string := rstrip (lstrip s).

(** Truth value of a string: [bool(s)]. *)
Definition truthy (s : string) : bool :=
  match s with EmptyString => false | String _ _ => true end.

(** [len(s)] *)
Definition len (s : string) : nat := String.length s.

(** [str(i)] for a non-negative integer. *)
Definition of_nat (i : nat) : string :=
  NilEmpty.string_of_uint (Nat.to_uint i).

Fixpoint all_space (s : string) : bool :=
  match s with
  | EmptyString => true
  | String c r => isspace c && all_space r
  end.

(** ["sep".join(parts)] *)
Fixpoint join (sep : string) (parts : list string) : string :=
  match parts with
  | [] => ""
  | [p] => p
  | p :: rest => p ++ sep ++ join sep rest
  end.

Definition nl2 : string := String "010" (String "010" EmptyString).

End PyStr.

(** ** Exceptions and outcomes *)

(** The exception classes the code names or that the libraries raise.
    Every class here derives from [Exception]; signals that derive from
    [BaseException] alone (interpreter exit, keyboard interrupt) are not
    failures of a library and are left out. *)
Inductive exc_class : Type :=
| Exception
| ValueError
| TypeError
| OSError
| FileNotFoundError
| PermissionError
| LibraryError (name : string).

Definition exc_class_eqb (a b : exc_class) : bool :=
  match a, b with
  | Exception, Exception | ValueError, ValueError | OSError, OSError
  | TypeError, TypeError
  | FileNotFoundError, FileNotFoundError
  | PermissionError, PermissionError => true
  | LibraryError x, LibraryError y => String.eqb x y
  | _, _ => false
  end.

(** Direct base class; [Exception] is the root of the modelled hierarchy. *)
Definition exc_base (c : exc_class) : option exc_class :=
  match c with
  | Exception => None
  | ValueError | TypeError | OSError | LibraryError _ => Some Exception
  | FileNotFoundError | PermissionError => Some OSError
  end.

(** [issubclass(c, target)]; the hierarchy has depth two. *)
Definition issubclass (c target : exc_class) : bool :=
  exc_class_eqb c target
  || match exc_base c with
     | None => false
     | Some b =>
         exc_class_eqb b target
         || match exc_base b with
            | None => false
            | Some bb => exc_class_eqb bb target
            end
     end.

Record exn : Type := mk_exn {
  exn_class : exc_class;
  exn_str : string              (* str(e) *)
}.

Inductive outcome (A : Type) : Type :=
| Returns (a : A)
| Raises (e : exn).
Arguments Returns {A} a.
Arguments Raises {A} e.

(** ** The Chroma collection as the code sees it *)

Record metadata : Type := mk_metadata {
  document_id : string;
  chunk_index : nat;
  source : string;
  timestamp : string
}.

(** One stored record: identity key, text and metadata. *)
Record chunk_record : Type := mk_record {
  r_id : string;
  r_document : string;
  r_metadata : metadata
}.

Definition collection_state : Type := list chunk_record.

(** [{"document_id": {"$in": ids}}] *)
Inductive where_filter : Type :=
| WhereDocumentIdIn (ids : list string).

(** What [collection.query] returns: one inner list per query text;
    [documents] and [metadatas] may be [None]. *)
Record query_result : Type := mk_query_result {
  qr_documents : option (list (list string));
  qr_ids : list (list string);
  qr_metadatas : option (list (list metadata))
}.

(** What [collection.get] returns. *)
Record get_result : Type := mk_get_result {
  gr_ids : list string;
  gr_documents : option (list string)
}.

(** Calls received by the underlying index, oldest first. *)
Inductive index_call : Type :=
| CallAdd (documents ids : list string) (metadatas : list metadata)
| CallQuery (query_texts : list string) (n_results : Z)
            (where_ : option where_filter)
| CallGet (where_ : where_filter).

Inductive log_level : Type := INFO | WARNING | ERROR.

(** The state the two modules act on. *)
Record world : Type := mk_world {
  w_coll : collection_state;              (* contents of the collection *)
  w_calls : list index_call;              (* calls made to the index *)
  w_log : list (log_level * string);      (* logger records *)
  w_stdout : list string                  (* lines written by print *)
}.

(** ** A state and exception monad for the Python code *)

Definition M (A : Type) : Type := world -> outcome A * world.

Definition ret {A} (a : A) : M A := fun w => (Returns a, w).

Definition raise {A} (e : exn) : M A := fun w => (Raises e, w).

Definition bind {A B} (m : M A) (k : A -> M B) : M B :=
  fun w =>
    match m w with
    | (Returns a, w') => k a w'
    | (Raises e, w') => (Raises e, w')
    end.

Notation "x <- m ;; k" := (bind m (fun x => k))
  (at level 61, m at next level, right associativity).
Notation "m ;;; k" := (bind m (fun _ => k))
  (at level 61, right associativity).

(** [try: body  except cls1: h1  except cls2 as e: h2 ...]: the first
    clause whose class the exception is an instance of handles it. *)
Fixpoint dispatch {A} (handlers : list (exc_class * (exn -> M A)))
         (e : exn) : M A :=
  match handlers with
  | [] => raise e
  | (cls, h) :: rest =>
      if issubclass (exn_class e) cls then h e else dispatch rest e
  end.

Definition try_except {A} (body : M A)
           (handlers : list (exc_class * (exn -> M A))) : M A :=
  fun w =>
    match body w with
    | (Returns a, w') => (Returns a, w')
    | (Raises e, w') => dispatch handlers e w'
    end.

Definition lift_outcome {A} (o : outcome A) : M A := fun w => (o, w).

Definition logger (lvl : log_level) (msg : string) : M unit :=
  fun w => (Returns tt,
            mk_world (w_coll w) (w_calls w) (w_log w ++ [(lvl, msg)])
                     (w_stdout w)).

Definition print (msg : string) : M unit :=
  fun w => (Returns tt,
            mk_world (w_coll w) (w_calls w) (w_log w)
                     (w_stdout w ++ [msg])).

(** ** The libraries the code calls *)

(** [pathlib.Path]: what [open] receives and its final component. *)
Record Path : Type := mk_path {
  fspath : string;
  name : string
}.

Record libraries : Type := mk_libraries {
  (* open(pdf_path, "rb") and PyPDF2.PdfReader(file).pages: opening may
     raise; each page's extract_text() returns its text or raises *)
  pdf_pages : string -> outcome (list (outcome string));
  (* RecursiveCharacterTextSplitter(chunk_size, chunk_overlap,
     separators).split_text(text) *)
  split_text : Z -> Z -> list string -> string -> outcome (list string);
  (* config.settings *)
  CHUNK_SIZE : Z;
  CHUNK_OVERLAP : Z;
  (* datetime.utcnow().isoformat() *)
  utcnow_isoformat : string;
  (* collection.add(documents, ids, metadatas): the outcome and the
     contents afterwards (a failed add may leave partial writes) *)
  coll_add : list string -> list string -> list metadata ->
             collection_state -> outcome unit * collection_state;
  (* collection.query(query_texts, n_results, where) *)
  coll_query : list string -> Z -> option where_filter ->
               collection_state -> outcome query_result;
  (* collection.get(where) *)
  coll_get : where_filter -> collection_state -> outcome get_result
}.

(** Result of [store_document_chunks]. *)
Record store_result : Type := mk_store_result {
  status : string;
  chunks_stored : nat;
  error : option string
}.

(** Result of [process_document]. *)
Record process_result : Type := mk_process_result {
  chunks_count : nat;
  p_status : string
}.

(** Result of [search_documents]. *)
Record search_result : Type := mk_search_result {
  sr_chunks : list string;
  sr_ids : list string;
  sr_metadatas : list metadata
}.

(** The composite identity key [f"{document_id}_chunk_{i}"]. *)
Definition chunk_id (doc : string) (i : nat) : string :=
  doc ++ "_chunk_" ++ PyStr.of_nat i.

(** [source or "unknown"] *)
Definition source_or_unknown (src : option string) : string :=
  match src with
  | Some s => if PyStr.truthy s then s else "unknown"
  | None => "unknown"
  end.

(** How an f-string renders an optional string. *)
Definition fmt_opt (src : option string) : string :=
  match src with Some s => s | None => "None" end.

(** The records a batch [add] carries. *)
Fixpoint batch (documents ids : list string) (metadatas : list metadata)
  : list chunk_record :=
  match documents, ids, metadatas with
  | t :: documents', i :: ids', m :: metadatas' =>
      mk_record i t m :: batch documents' ids' metadatas'
  | _, _, _ => []
  end.

Section Pipeline.

Variable L : libraries.

(** *** database/vector_store.py *)

Definition collection_add (documents ids : list string)
           (metadatas : list metadata) : M unit :=
  fun w =>
    let '(r, c') := coll_add L documents ids metadatas (w_coll w) in
    (r, mk_world c' (w_calls w ++ [CallAdd documents ids metadatas])
                 (w_log w) (w_stdout w)).

Definition collection_query (query_texts : list string) (n_results : Z)
           (where_ : option where_filter) : M query_result :=
  fun w =>
    (coll_query L query_texts n_results where_ (w_coll w),
     mk_world (w_coll w)
              (w_calls w ++ [CallQuery query_texts n_results where_])
              (w_log w) (w_stdout w)).

Definition collection_get (where_ : where_filter) : M get_result :=
  fun w =>
    (coll_get L where_ (w_coll w),
     mk_world (w_coll w) (w_calls w ++ [CallGet where_])
              (w_log w) (w_stdout w)).

Definition chunk_ids (doc : string) (chunks : list string) : list string :=
  map (fun i => chunk_id doc i) (seq 0 (length chunks)).

Definition chunk_metadatas (doc : string) (chunks : list string)
           (src : option string) (ts : string) : list metadata :=
  map (fun i => mk_metadata doc i (source_or_unknown src) ts)
      (seq 0 (length chunks)).

Definition store_document_chunks (document_id : string)
           (chunks : list string) (source : option string)
  : M store_result :=
  match chunks with
  | [] =>
      logger WARNING ("No chunks to store for document " ++ document_id) ;;;
      ret (mk_store_result "success" 0 None)
  | _ :: _ =>
      try_except
        (let timestamp := utcnow_isoformat L ++ "Z" in
         let ids := chunk_ids document_id chunks in
         let metadatas :=
           chunk_metadatas document_id chunks source timestamp in
         collection_add chunks ids metadatas ;;;
         logger INFO ("Successfully stored "
                      ++ PyStr.of_nat (length chunks)
                      ++ " chunks for document " ++ document_id
                      ++ " (source: " ++ fmt_opt source ++ ")") ;;;
         ret (mk_store_result "success" (length chunks) None))
        [(Exception,
          fun e =>
            let error_msg := "Failed to store chunks for document "
                             ++ document_id ++ ": " ++ exn_str e in
            logger ERROR error_msg ;;;
            ret (mk_store_result "failed" 0 (Some (exn_str e))))]
  end.

(** [results[k][0] if results[k] else []] *)
Definition first_or_empty {A} (l : option (list (list A))) : list A :=
  match l with
  | Some (x :: _) => x
  | _ => []
  end.

(** [where_filter = None; if document_ids: where_filter =
    {"document_id": {"$in": document_ids}}]: the whole list, when it is
    given and not empty. *)
Definition restriction (document_ids : option (list string))
  : option where_filter :=
  match document_ids with
  | None => None
  | Some [] => None
  | Some (d :: ds) => Some (WhereDocumentIdIn (d :: ds))
  end.

Definition search_documents (query : string)
           (document_ids : option (list string)) (n_results : Z)
  : M search_result :=
  let where_filter := restriction document_ids in
  results <- collection_query [query] n_results where_filter ;;
  ret (mk_search_result
         (first_or_empty (qr_documents results))
         (first_or_empty (Some (qr_ids results)))
         (first_or_empty (qr_metadatas results))).

(** [results['documents'] if results['documents'] else []] *)
Definition documents_or_empty (res : get_result) : list string :=
  match gr_documents res with
  | Some l => l
  | None => []
  end.

Definition get_all_chunks_for_documents (document_ids : list string)
  : M (list string) :=
  match document_ids with
  | [] => ret []
  | _ :: _ =>
      results <- collection_get (WhereDocumentIdIn document_ids) ;;
      ret (documents_or_empty results)
  end.

(** *** services/document_processor.py *)

(** The loop [for page in pdf_reader.pages: text += page.extract_text()
    + "\n\n"]. *)
Fixpoint read_pages (pages : list (outcome string)) (text : string)
  : outcome string :=
  match pages with
  | [] => Returns text
  | Returns t :: rest => read_pages rest (text ++ (t ++ PyStr.nl2))
  | Raises e :: _ => Raises e
  end.

Definition open_and_read (pdf_path : Path) : M string :=
  match pdf_pages L (fspath pdf_path) with
  | Returns pages => lift_outcome (read_pages pages "")
  | Raises e => raise e
  end.

Definition extract_text_from_pdf (pdf_path : Path) : M string :=
  try_except
    (text <- open_and_read pdf_path ;;
     if negb (PyStr.truthy (PyStr.strip text)) then ret ""
     else ret (PyStr.strip text))
    [(FileNotFoundError, fun _ => ret "");
     (Exception,
      fun e => print ("Error extracting PDF: " ++ exn_str e) ;;; ret "")].

Definition separators : list string :=
  [PyStr.nl2; String "010" EmptyString; " "; ""].

Definition chunk_text (text : string) (chunk_size chunk_overlap : Z)
  : outcome (list string) :=
  if negb (PyStr.truthy text) || negb (PyStr.truthy (PyStr.strip text))
  then Returns []
  else split_text L chunk_size chunk_overlap separators text.

(** The error [process_document] raises for a short document. *)
Definition DocumentTooShort : exn :=
  mk_exn ValueError "Document too short or empty".

Definition process_document (document_id : string) (file_path : Path)
  : M process_result :=
  logger INFO ("Processing document " ++ document_id ++ " from "
               ++ name file_path) ;;;
  text <- extract_text_from_pdf file_path ;;
  if negb (PyStr.truthy text) || Nat.ltb (PyStr.len text) 100 then
    (logger ERROR ("Document " ++ document_id ++ " is too short or empty") ;;;
     raise DocumentTooShort)
  else
    (logger INFO ("Extracted " ++ PyStr.of_nat (PyStr.len text)
                  ++ " characters from " ++ name file_path) ;;;
     chunks <- lift_outcome
                 (chunk_text text (CHUNK_SIZE L) (CHUNK_OVERLAP L)) ;;
     logger INFO ("Created " ++ PyStr.of_nat (length chunks)
                  ++ " chunks from document " ++ document_id) ;;;
     storage_result <-
       store_document_chunks document_id chunks (Some (name file_path)) ;;
     if String.eqb (status storage_result) "failed" then
       (let error_msg :=
          "Failed to store document chunks: "
          ++ match error storage_result with
             | Some msg => msg
             | None => "Unknown error"
             end in
        logger ERROR error_msg ;;;
        raise (mk_exn ValueError error_msg))
     else
       (logger INFO ("Successfully processed document " ++ document_id
                     ++ ": " ++ PyStr.of_nat (chunks_stored storage_result)
                     ++ " chunks stored") ;;;
        ret (mk_process_result (chunks_stored storage_result)
                               (status storage_result)))).

End Pipeline.

(** ** What the pipeline expects of the index *)

(** [r]'s metadata names one of the documents in [D]. *)
Definition doc_in (D : list string) (r : chunk_record) : bool :=
  existsb (String.eqb (document_id (r_metadata r))) D.

(** The capabilities required of the embedding/index provider: a batch
    insert that writes nothing but records of the batch and, when it
    returns normally on fresh and distinct keys, has written all of them;
    and a bulk fetch by metadata predicate. *)
Record provider_contract (L : libraries) : Prop := {
  add_only_batch :
    forall docs ids metas c r c',
      coll_add L docs ids metas c = (r, c') ->
      forall x, In x c' -> In x c \/ In x (batch docs ids metas);
  add_stores_batch :
    forall docs ids metas c c',
      coll_add L docs ids metas c = (Returns tt, c') ->
      NoDup ids ->
      (forall x, In x c -> ~ In (r_id x) ids) ->
      Permutation c' (c ++ batch docs ids metas);
  get_by_document :
    forall D c, exists res,
      coll_get L (WhereDocumentIdIn D) c = Returns res /\
      Permutation (documents_or_empty res)
                  (map r_document (filter (doc_in D) c))
}.

(** Every record is keyed by the composite identity of its metadata. *)
Definition well_keyed (c : collection_state) : Prop :=
  forall r, In r c ->
    r_id r = chunk_id (document_id (r_metadata r))
                      (chunk_index (r_metadata r)).

(** The store holds no chunk of document [d]. *)
Definition no_chunks_for (d : string) (c : collection_state) : Prop :=
  forall r, In r c -> document_id (r_metadata r) <> d.


(** The text [extract_text_from_pdf] returns for a path; the extractor
    reads only the PDF, so the world it runs in does not matter. *)
Definition empty_world : world := mk_world [] [] [] [].

Definition text_of (L : libraries) (p : Path) : string :=
  match fst (extract_text_from_pdf L p empty_world) with
  | Returns t => t
  | Raises _ => ""
  end.

(** The world with further logger records. *)
Definition log_add (w : world) (entries : list (log_level * string)) : world :=
  mk_world (w_coll w) (w_calls w) (w_log w ++ entries) (w_stdout w).

(** The length test of [process_document]: [not text or len(text) < 100]. *)
Definition too_short (text : string) : bool :=
  negb (PyStr.truthy text) || Nat.ltb (PyStr.len text) 100.

(** [c in s] for a character. *)
Fixpoint has_char (c : ascii) (s : string) : bool :=
  match s with
  | EmptyString => false
  | String x r => Ascii.eqb x c || has_char c r
  end.

(** The texts of the pages when every [extract_text] call returns. *)
Fixpoint page_texts (pages : list (outcome string)) : option (list string) :=
  match pages with
  | [] => Some []
  | Returns t :: rest =>
      match page_texts rest with
      | Some ts => Some (t :: ts)
      | None => None
      end
  | Raises _ :: _ => None
  end.

(** An absent source name: [None] or the empty string. *)
Definition source_absent (src : option string) : Prop :=
  src = None \/ src = Some "".

(** [str(n)] for an integer. *)
Definition str_of_Z (n : Z) : string := NilEmpty.string_of_int (Z.to_int n).

(** ** An in-memory instance of the libraries *)

Module Mem.

Definition select (wh : option where_filter) (c : collection_state)
  : collection_state :=
  match wh with
  | None => c
  | Some (WhereDocumentIdIn D) => filter (doc_in D) c
  end.

(** [fail]: the error the index raises on insert, if any. *)
Definition add (fail : option exn) (docs ids : list string)
           (metas : list metadata) (c : collection_state)
  : outcome unit * collection_state :=
  match fail with
  | Some e => (Raises e, c)
  | None => (Returns tt, (c ++ batch docs ids metas)%list)
  end.

(** No ranking: the first [n_results] records that pass the filter.  As
    Chroma does, the index refuses a number of results that is not
    positive. *)
Definition query (texts : list string) (n_results : Z)
           (wh : option where_filter) (c : collection_state)
  : outcome query_result :=
  if Z.leb n_results 0 then
    Raises (mk_exn TypeError
              ("Number of requested results " ++ str_of_Z n_results
               ++ ", cannot be negative, or zero."))
  else
    let hits := firstn (Z.to_nat n_results) (select wh c) in
    Returns (mk_query_result
               (Some (map (fun _ => map r_document hits) texts))
               (map (fun _ => map r_id hits) texts)
               (Some (map (fun _ => map r_metadata hits) texts))).

Definition get (wh : where_filter) (c : collection_state)
  : outcome get_result :=
  let hits := select (Some wh) c in
  Returns (mk_get_result (map r_id hits) (Some (map r_document hits))).

Fixpoint lookup (files : list (string * list (outcome string)))
         (path : string) : outcome (list (outcome string)) :=
  match files with
  | [] => Raises (mk_exn FileNotFoundError
                         ("[Errno 2] No such file or directory: " ++ path))
  | (p, pages) :: rest =>
      if String.eqb p path then Returns pages else lookup rest path
  end.

(** A splitter that checks its sizes and keeps the text in one piece. *)
Definition one_chunk (chunk_size chunk_overlap : Z) (seps : list string)
           (text : string) : outcome (list string) :=
  if Z.ltb chunk_size chunk_overlap
  then Raises (mk_exn ValueError "chunk overlap larger than chunk size")
  else Returns [text].

Definition libs (files : list (string * list (outcome string)))
           (fail : option exn) : libraries :=
  mk_libraries (lookup files) one_chunk 1000 200
               "2024-01-01T00:00:00" (add fail) query get.

End Mem.

(** Concrete inputs on which the statements below are evaluated. *)
Module Demo.

Definition text : string :=
  "Machine learning is a subset of artificial intelligence that enables systems to learn from data over time.".

(** A tab, a space and a blank line. *)
Definition blank : string := String "009" (String " " PyStr.nl2).

Definition path : Path := mk_path "uploads/sample.pdf" "sample.pdf".
Definition short_path : Path := mk_path "uploads/short.pdf" "short.pdf".

Definition files : list (string * list (outcome string)) :=
  [("uploads/sample.pdf", [Returns text]);
   ("uploads/short.pdf", [Returns "Too short"]);
   ("uploads/padded.pdf", [Returns " A"; Returns "B "])].

Definition refused : exn :=
  mk_exn (LibraryError "ConnectionError") "Connection refused".

(** A working index, one that refuses inserts, and one whose error has
    no text (as a bare [assert] inside the library raises). *)
Definition working : libraries := Mem.libs files None.
Definition failing : libraries := Mem.libs files (Some refused).
Definition silent : libraries :=
  Mem.libs files (Some (mk_exn (LibraryError "AssertionError") "")).

(** A store that already holds a chunk of another document. *)
Definition stocked : world :=
  mk_world [mk_record "doc_0_chunk_0" "An earlier document."
              (mk_metadata "doc_0" 0 "earlier.pdf" "2023-12-31T23:59:59Z")]
           [] [] [].

End Demo.

(** ** services/audio_service.py *)

Module Speech.

(** Files written so far, newest first: path and contents. *)
Definition fs_state : Type := list (string * string).

(** Calls that leave the process, oldest first. *)
Inductive speech_call : Type :=
| CallGenerate (text voice model : string)
| CallMkdir (path : string)
| CallWrite (path audio : string).

Record speech_world : Type := mk_speech_world {
  s_files : fs_state;
  s_calls : list speech_call;
  s_log : list (log_level * string)
}.

(** The elevenlabs client, [pathlib] and the file system. *)
Record speech_libraries : Type := mk_speech_libraries {
  (* config.settings.PODCAST_DIR *)
  PODCAST_DIR : string;
  (* str(PODCAST_DIR / output_filename) *)
  path_join : string -> string -> string;
  (* elevenlabs.generate(text, voice, model): the audio bytes, or an error *)
  generate : string -> string -> string -> outcome string;
  (* PODCAST_DIR.mkdir(parents=True, exist_ok=True) *)
  mkdir_parents : string -> fs_state -> outcome unit * fs_state;
  (* with open(output_path, "wb") as f: f.write(audio) *)
  write_bytes : string -> string -> fs_state -> outcome unit * fs_state;
  (* isinstance(e, RateLimitError), isinstance(e, APIError) *)
  is_RateLimitError : exn -> bool;
  is_APIError : exn -> bool
}.

Definition SM (A : Type) : Type := speech_world -> outcome A * speech_world.

Definition ret {A} (a : A) : SM A := fun w => (Returns a, w).

Definition raise {A} (e : exn) : SM A := fun w => (Raises e, w).

Definition bind {A B} (m : SM A) (k : A -> SM B) : SM B :=
  fun w =>
    match m w with
    | (Returns a, w') => k a w'
    | (Raises e, w') => (Raises e, w')
    end.

(** [try: body except ...: handler]; [handler] holds the except clauses. *)
Definition try_except {A} (body : SM A) (handler : exn -> SM A) : SM A :=
  fun w =>
    match body w with
    | (Returns a, w') => (Returns a, w')
    | (Raises e, w') => handler e w'
    end.

Declare Scope speech_scope.
Notation "x <- m ;; k" := (bind m (fun x => k))
  (at level 61, m at next level, right associativity) : speech_scope.
Notation "m ;;; k" := (bind m (fun _ => k))
  (at level 61, right associativity) : speech_scope.
Local Open Scope speech_scope.

Definition logger (lvl : log_level) (msg : string) : SM unit :=
  fun w => (Returns tt,
            mk_speech_world (s_files w) (s_calls w)
                            (s_log w ++ [(lvl, msg)])).

(** [VOICE_CONFIG] *)
Definition VOICE_CONFIG : list (string * string) :=
  [("host", "21m00Tcm4TlvDq8ikWAM"); ("guest", "EXAVITQu4vr4xnSDxMaL")].

(** [d[key]] when [key in d]. *)
Fixpoint dict_get (d : list (string * string)) (key : string)
  : option string :=
  match d with
  | [] => None
  | (k, v) :: rest => if String.eqb k key then Some v else dict_get rest key
  end.

Definition DEFAULT_MODEL : string := "eleven_turbo_v2".

Section Service.

Variable L : speech_libraries.

Definition call_generate (text voice model : string) : SM string :=
  fun w =>
    (generate L text voice model,
     mk_speech_world (s_files w)
                     (s_calls w ++ [CallGenerate text voice model])
                     (s_log w)).

Definition call_mkdir (path : string) : SM unit :=
  fun w =>
    let '(r, fs) := mkdir_parents L path (s_files w) in
    (r, mk_speech_world fs (s_calls w ++ [CallMkdir path]) (s_log w)).

Definition call_write (path audio : string) : SM unit :=
  fun w =>
    let '(r, fs) := write_bytes L path audio (s_files w) in
    (r, mk_speech_world fs (s_calls w ++ [CallWrite path audio]) (s_log w)).

(** The three except clauses of [generate_speech], in order. *)
Definition speech_handlers (e : exn) : SM string :=
  if is_RateLimitError L e then
    (logger ERROR ("ElevenLabs rate limit exceeded: " ++ exn_str e) ;;;
     raise (mk_exn (LibraryError "RateLimitError")
              "Rate limit exceeded. Please wait before making more requests."))
  else if is_APIError L e then
    (logger ERROR ("ElevenLabs API error: " ++ exn_str e) ;;;
     raise (mk_exn (LibraryError "APIError")
                   ("Failed to generate speech: " ++ exn_str e)))
  else
    (logger ERROR ("Unexpected error generating speech: " ++ exn_str e) ;;;
     raise (mk_exn Exception ("Failed to generate speech: " ++ exn_str e))).

Definition generate_speech (text voice_id output_filename model : string)
  : SM string :=
  if negb (PyStr.truthy text) || negb (PyStr.truthy (PyStr.strip text)) then
    raise (mk_exn ValueError "Text cannot be empty")
  else if negb (PyStr.truthy voice_id) then
    raise (mk_exn ValueError "Voice ID is required")
  else if negb (PyStr.truthy output_filename) then
    raise (mk_exn ValueError "Output filename is required")
  else
    try_except
      (logger INFO ("Generating speech for text length: "
                    ++ PyStr.of_nat (PyStr.len text) ++ " characters") ;;;
       logger INFO ("Using voice ID: " ++ voice_id) ;;;
       audio <- call_generate text voice_id model ;;
       call_mkdir (PODCAST_DIR L) ;;;
       let output_path := path_join L (PODCAST_DIR L) output_filename in
       call_write output_path audio ;;;
       logger INFO ("Audio saved to: " ++ output_path) ;;;
       ret output_path)
      speech_handlers.

(** [f"segment_{segment_number}_{speaker}.mp3"] *)
Definition segment_filename (segment_number : Z) (speaker : string) : string :=
  "segment_" ++ str_of_Z segment_number ++ "_" ++ speaker ++ ".mp3".

Definition generate_podcast_segment (text speaker : string)
           (segment_number : Z) : SM string :=
  match dict_get VOICE_CONFIG speaker with
  | None =>
      raise (mk_exn ValueError
               ("Speaker must be 'host' or 'guest', got: " ++ speaker))
  | Some voice_id =>
      generate_speech text voice_id
                      (segment_filename segment_number speaker) DEFAULT_MODEL
  end.

(** [VOICE_CONFIG.copy()] *)
Definition get_available_voices : list (string * string) := VOICE_CONFIG.

End Service.

(** An in-memory client and file system; [gen_fail], [mkdir_fail] and
    [write_fail] are the errors the three calls raise, if any. *)
Definition mem (gen_fail mkdir_fail write_fail : option exn)
  : speech_libraries :=
  mk_speech_libraries
    "podcasts"
    (fun dir file => dir ++ "/" ++ file)
    (fun text voice model =>
       match gen_fail with
       | Some e => Raises e
       | None => Returns ("mp3:" ++ voice ++ ":" ++ text)
       end)
    (fun path fs =>
       match mkdir_fail with
       | Some e => (Raises e, fs)
       | None => (Returns tt, fs)
       end)
    (fun path audio fs =>
       match write_fail with
       | Some e => (Raises e, fs)
       | None => (Returns tt, (path, audio) :: fs)
       end)
    (fun e => exc_class_eqb (exn_class e) (LibraryError "RateLimitError"))
    (fun e => exc_class_eqb (exn_class e) (LibraryError "RateLimitError")
              || exc_class_eqb (exn_class e) (LibraryError "APIError")).

Definition nothing : speech_world := mk_speech_world [] [] [].

(** A disk that refuses the write. *)
Definition read_only_disk : speech_libraries :=
  mem None None
      (Some (mk_exn PermissionError "[Errno 13] Permission denied")).

End Speech.

(** ** Further inputs for the statements on the rest of the pipeline *)



(** The batch of an insert, as the store sees it. *)
Definition stored_batch (L : libraries) (d : string) (chunks : list string)
           (src : option string) : list chunk_record :=
  batch chunks (chunk_ids d chunks)
        (chunk_metadatas d chunks src (utcnow_isoformat L ++ "Z")).

Module Extra.

(** A splitter that finds nothing to keep, and one that always fails. *)
Definition no_chunks : libraries :=
  mk_libraries (Mem.lookup Demo.files) (fun _ _ _ _ => Returns []) 1000 200
               "2024-01-01T00:00:00" (Mem.add None) Mem.query Mem.get.

Definition bad_sizes : exn :=
  mk_exn ValueError "chunk overlap larger than chunk size".

Definition broken_splitter : libraries :=
  mk_libraries (Mem.lookup Demo.files) (fun _ _ _ _ => Raises bad_sizes)
               1000 200 "2024-01-01T00:00:00" (Mem.add None)
               Mem.query Mem.get.

(** A PDF whose second page cannot be read. *)
Definition damaged : libraries :=
  Mem.libs [("uploads/damaged.pdf",
             [Returns "Page one"; Raises (mk_exn (LibraryError "PdfReadError")
                                                 "EOF marker not found")])]
           None.

Definition damaged_path : Path := mk_path "uploads/damaged.pdf" "damaged.pdf".
Definition missing_path : Path := mk_path "uploads/nowhere.pdf" "nowhere.pdf".

End Extra.

(** * Properties *)

(** ** Strings *)

Section StringFacts.

Import PyStr.

Lemma append_nil_r (s : string) : s ++ "" = s.
Proof. induction s as [|c s IH]; simpl; [reflexivity | now rewrite IH]. Qed.

Lemma append_assoc (a b c : string) : (a ++ b) ++ c = a ++ (b ++ c).
Proof. induction a as [|x a IH]; simpl; [reflexivity | now rewrite IH]. Qed.

Lemma append_inv_head (a b c : string) : a ++ b = a ++ c -> b = c.
Proof.
  induction a as [|x a IH]; simpl; intros H; [exact H|].
  injection H as H. now apply IH.
Qed.

Lemma rev_app (a b : string) : rev (a ++ b) = rev b ++ rev a.
Proof.
  induction a as [|x a IH]; simpl.
  - now rewrite append_nil_r.
  - now rewrite IH, append_assoc.
Qed.

Lemma all_space_app (a b : string) :
  all_space (a ++ b) = all_space a && all_space b.
Proof.
  induction a as [|x a IH]; simpl; [reflexivity|].
  now rewrite IH, andb_assoc.
Qed.

Lemma all_space_rev (s : string) : all_space (rev s) = all_space s.
Proof.
  induction s as [|x s IH]; simpl; [reflexivity|].
  rewrite all_space_app, IH. simpl.
  rewrite andb_true_r. apply andb_comm.
Qed.

Lemma lstrip_app (s t : string) :
  lstrip (s ++ t) = if all_space s then lstrip t else lstrip s ++ t.
Proof.
  induction s as [|x s IH]; simpl; [reflexivity|].
  destruct (isspace x); simpl; [exact IH | reflexivity].
Qed.

Lemma lstrip_all_space (s : string) : all_space s = true -> lstrip s = "".
Proof.
  induction s as [|x s IH]; simpl; [reflexivity|].
  destruct (isspace x); simpl; [exact IH | discriminate].
Qed.

(** A string of whitespace strips to nothing. *)
Lemma strip_all_space (s : string) : all_space s = true -> strip s = "".
Proof.
  intros H. unfold strip, rstrip. now rewrite (lstrip_all_space s H).
Qed.

(** Trailing whitespace does not survive [strip]. *)
Lemma strip_app_space (s t : string) :
  all_space t = true -> strip (s ++ t) = strip s.
Proof.
  intros Ht. unfold strip, rstrip. rewrite lstrip_app.
  destruct (all_space s) eqn:Hs.
  - now rewrite (lstrip_all_space t Ht), (lstrip_all_space s Hs).
  - rewrite rev_app, lstrip_app, all_space_rev, Ht. reflexivity.
Qed.

Lemma truthy_false (s : string) : truthy s = false <-> s = "".
Proof. destruct s; simpl; split; intros H; congruence. Qed.

End StringFacts.

(** ** Exceptions *)

(** [except Exception] catches every modelled error. *)
Lemma issubclass_Exception (c : exc_class) : issubclass c Exception = true.
Proof. destruct c; reflexivity. Qed.

(** ** The chunk store: insert *)

Section StoreFacts.

Variable L : libraries.

Lemma chunk_ids_length d chunks : length (chunk_ids d chunks) = length chunks.
Proof. unfold chunk_ids. now rewrite length_map, length_seq. Qed.

Lemma chunk_metadatas_length d chunks src ts :
  length (chunk_metadatas d chunks src ts) = length chunks.
Proof. unfold chunk_metadatas. now rewrite length_map, length_seq. Qed.

Lemma nth_error_map_seq {A} (f : nat -> A) n i :
  i < n -> nth_error (map f (seq 0 n)) i = Some (f i).
Proof.
  intros Hi. rewrite nth_error_map.
  rewrite (nth_error_nth' (seq 0 n) 0) by now rewrite length_seq.
  simpl. now rewrite seq_nth.
Qed.

(** The run of [store_document_chunks] on a non-empty list, step by
    step: one [add], then the success or the failure branch. *)
Lemma store_document_chunks_run d chunks src w :
  chunks <> [] ->
  let ts := utcnow_isoformat L ++ "Z" in
  let ids := chunk_ids d chunks in
  let metas := chunk_metadatas d chunks src ts in
  let called := (w_calls w ++ [CallAdd chunks ids metas])%list in
  store_document_chunks L d chunks src w =
  match coll_add L chunks ids metas (w_coll w) with
  | (Returns _, c') =>
      (Returns (mk_store_result "success" (length chunks) None),
       mk_world c' called
         (w_log w ++
          [(INFO, "Successfully stored " ++ PyStr.of_nat (length chunks)
                  ++ " chunks for document " ++ d
                  ++ " (source: " ++ fmt_opt src ++ ")")])
         (w_stdout w))
  | (Raises e, c') =>
      (Returns (mk_store_result "failed" 0 (Some (exn_str e))),
       mk_world c' called
         (w_log w ++
          [(ERROR, "Failed to store chunks for document " ++ d ++ ": "
                   ++ exn_str e)])
         (w_stdout w))
  end.
Proof.
  intros Hne. destruct chunks as [|c cs]; [congruence|].
  cbv zeta. unfold store_document_chunks, try_except, bind, collection_add.
  destruct (coll_add L (c :: cs) _ _ (w_coll w)) as [[u|e] c'];
    simpl; [reflexivity|].
  rewrite issubclass_Exception. reflexivity.
Qed.

End StoreFacts.

(** ** The text extractor *)

Section ExtractFacts.

Variable L : libraries.

(** The loop appends each page's text and a blank line, in page order,
    and stops at the first page that fails. *)
Lemma read_pages_texts pages acc :
  match page_texts pages with
  | Some ts =>
      read_pages pages acc
      = Returns (acc ++ String.concat "" (map (fun t => t ++ PyStr.nl2) ts))
  | None => exists e, read_pages pages acc = Raises e
  end.
Proof.
  revert acc. induction pages as [|[t|e] rest IH]; intros acc; simpl.
  - now rewrite append_nil_r.
  - specialize (IH (acc ++ (t ++ PyStr.nl2))).
    destruct (page_texts rest) as [ts|].
    + rewrite IH, append_assoc. f_equal. f_equal.
      destruct ts as [|t' ts]; simpl; [now rewrite append_nil_r|].
      reflexivity.
    + exact IH.
  - now exists e.
Qed.

(** Each page followed by a blank line is the pages joined by blank
    lines, followed by a blank line. *)
Lemma concat_pages_join t ts :
  String.concat "" (map (fun x => x ++ PyStr.nl2) (t :: ts))
  = PyStr.join PyStr.nl2 (t :: ts) ++ PyStr.nl2.
Proof.
  revert t. induction ts as [|t' ts IH]; intros t.
  - reflexivity.
  - change (String.concat "" (map (fun x => x ++ PyStr.nl2) (t :: t' :: ts)))
      with ((t ++ PyStr.nl2) ++ ""
            ++ String.concat "" (map (fun x => x ++ PyStr.nl2) (t' :: ts))).
    rewrite IH.
    change (PyStr.join PyStr.nl2 (t :: t' :: ts))
      with (t ++ PyStr.nl2 ++ PyStr.join PyStr.nl2 (t' :: ts)).
    simpl. now rewrite !append_assoc.
Qed.

(** The extractor always returns, leaves the index and the log alone,
    and its result is the same in every world. *)
Lemma extract_text_from_pdf_run p w :
  exists out,
    extract_text_from_pdf L p w
    = (Returns (text_of L p),
       mk_world (w_coll w) (w_calls w) (w_log w) (w_stdout w ++ out)).
Proof.
  unfold text_of, extract_text_from_pdf, try_except, bind, open_and_read.
  destruct (pdf_pages L (fspath p)) as [pages|e].
  - unfold lift_outcome. destruct (read_pages pages "") as [t|e].
    + exists []. rewrite app_nil_r. destruct w.
      destruct (negb (PyStr.truthy (PyStr.strip t))); reflexivity.
    + simpl. destruct (issubclass (exn_class e) FileNotFoundError).
      * exists []. rewrite app_nil_r. now destruct w.
      * rewrite issubclass_Exception.
        exists ["Error extracting PDF: " ++ exn_str e]. reflexivity.
  - unfold raise. simpl.
    destruct (issubclass (exn_class e) FileNotFoundError).
    + exists []. rewrite app_nil_r. now destruct w.
    + rewrite issubclass_Exception.
      exists ["Error extracting PDF: " ++ exn_str e]. reflexivity.
Qed.

End ExtractFacts.

(** ** The ingestion orchestrator *)

Section IngestFacts.

Variable L : libraries.

(** What the extractor yields for a path, in terms of the PDF. *)
Lemma text_of_pages p :
  text_of L p =
  match pdf_pages L (fspath p) with
  | Raises _ => ""
  | Returns pages =>
      match page_texts pages with
      | None => ""
      | Some ts => PyStr.strip (PyStr.join PyStr.nl2 ts)
      end
  end.
Proof.
  unfold text_of, extract_text_from_pdf, try_except, bind, open_and_read.
  destruct (pdf_pages L (fspath p)) as [pages|e].
  - unfold lift_outcome.
    pose proof (read_pages_texts pages "") as H.
    destruct (page_texts pages) as [ts|].
    + rewrite H. simpl.
      assert (Hs : PyStr.strip
                     (String.concat "" (map (fun t => t ++ PyStr.nl2) ts))
                   = PyStr.strip (PyStr.join PyStr.nl2 ts)).
      { destruct ts as [|t ts]; [reflexivity|].
        rewrite concat_pages_join. now apply strip_app_space. }
      rewrite Hs.
      destruct (PyStr.truthy (PyStr.strip (PyStr.join PyStr.nl2 ts)))
        eqn:Ht; simpl; [reflexivity|].
      symmetry. now apply truthy_false.
    + destruct H as [e He]. rewrite He. simpl.
      destruct (issubclass (exn_class e) FileNotFoundError);
        [reflexivity|]. now rewrite issubclass_Exception.
  - unfold raise. simpl.
    destruct (issubclass (exn_class e) FileNotFoundError);
      [reflexivity|]. now rewrite issubclass_Exception.
Qed.

Lemma too_short_spec text :
  too_short text = true <-> text = "" \/ PyStr.len text < 100.
Proof.
  unfold too_short. rewrite orb_true_iff, negb_true_iff, truthy_false.
  now rewrite Nat.ltb_lt.
Qed.

(** The run of [process_document], stage by stage. *)
Lemma process_document_run d p w :
  exists out,
    let text := text_of L p in
    let w1 := mk_world (w_coll w) (w_calls w)
                (w_log w ++ [(INFO, "Processing document " ++ d ++ " from "
                                    ++ name p)])
                (w_stdout w ++ out) in
    process_document L d p w =
    if too_short text then
      (Raises DocumentTooShort,
       log_add w1 [(ERROR, "Document " ++ d ++ " is too short or empty")])
    else
      let w2 := log_add w1 [(INFO, "Extracted "
                                   ++ PyStr.of_nat (PyStr.len text)
                                   ++ " characters from " ++ name p)] in
      match chunk_text L text (CHUNK_SIZE L) (CHUNK_OVERLAP L) with
      | Raises e => (Raises e, w2)
      | Returns chunks =>
          let w3 := log_add w2 [(INFO, "Created "
                                       ++ PyStr.of_nat (length chunks)
                                       ++ " chunks from document " ++ d)] in
          match store_document_chunks L d chunks (Some (name p)) w3 with
          | (Raises e, w4) => (Raises e, w4)
          | (Returns r, w4) =>
              if String.eqb (status r) "failed" then
                let msg := "Failed to store document chunks: "
                           ++ match error r with
                              | Some m => m
                              | None => "Unknown error"
                              end in
                (Raises (mk_exn ValueError msg), log_add w4 [(ERROR, msg)])
              else
                (Returns (mk_process_result (chunks_stored r) (status r)),
                 log_add w4 [(INFO, "Successfully processed document "
                                    ++ d ++ ": "
                                    ++ PyStr.of_nat (chunks_stored r)
                                    ++ " chunks stored")])
          end
      end.
Proof.
  destruct (extract_text_from_pdf_run L p
              (log_add w [(INFO, "Processing document " ++ d ++ " from "
                                 ++ name p)])) as [out Hx].
  exists out. cbv zeta.
  unfold process_document, bind at 1. unfold logger at 1.
  unfold bind at 1. unfold log_add in Hx. rewrite Hx.
  cbn [w_coll w_calls w_log w_stdout].
  fold (too_short (text_of L p)).
  destruct (too_short (text_of L p)); [reflexivity|].
  unfold bind at 1. unfold logger at 1. unfold bind at 1.
  unfold lift_outcome.
  destruct (chunk_text L (text_of L p) (CHUNK_SIZE L) (CHUNK_OVERLAP L))
    as [chunks|e]; [|reflexivity].
  unfold bind at 1. unfold logger at 1. unfold bind at 1.
  unfold log_add. cbn [w_coll w_calls w_log w_stdout].
  match goal with
  | |- context [store_document_chunks L d chunks ?s ?w0] =>
      destruct (store_document_chunks L d chunks s w0) as [[r|e] w4]
  end; [|reflexivity].
  destruct (String.eqb (status r) "failed"); reflexivity.
Qed.

End IngestFacts.

(** ** Claims about the chunk store's insert path *)

(** C6. For every document id and source name, [store_document_chunks]
    on an empty chunk sequence returns status "success" with
    [chunks_stored = 0] and no error, and makes no call to the underlying
    index: the call trace and the collection are unchanged. *)
Theorem store_empty_chunks_succeeds (L : libraries) (d : string)
        (src : option string) (w : world) :
  exists w',
    store_document_chunks L d [] src w
    = (Returns (mk_store_result "success" 0 None), w')
    /\ w_calls w' = w_calls w
    /\ w_coll w' = w_coll w.
Proof.
  eexists. split; [reflexivity|]. split; reflexivity.
Qed.

(** C5. For every non-empty chunk list, [store_document_chunks] makes
    exactly one call to the index, a batch [add] of all the chunks, in
    which the chunk at position [i] has the id ["{document_id}_chunk_{i}"]
    and a metadata of [document_id], [chunk_index = i], the given source
    name (or ["unknown"] when it is absent) and the clock's UTC ISO-8601
    time followed by ["Z"]. *)
Theorem store_assigns_ids_and_metadata (L : libraries) (d : string)
        (chunks : list string) (src : option string) (w : world) :
  chunks <> [] ->
  exists ids metas,
    w_calls (snd (store_document_chunks L d chunks src w))
    = (w_calls w ++ [CallAdd chunks ids metas])%list
    /\ length ids = length chunks
    /\ length metas = length chunks
    /\ forall i, i < length chunks ->
         nth_error ids i = Some (d ++ "_chunk_" ++ PyStr.of_nat i)
         /\ exists m,
              nth_error metas i = Some m
              /\ document_id m = d
              /\ chunk_index m = i
              /\ (forall s, src = Some s -> s <> "" -> source m = s)
              /\ (source_absent src -> source m = "unknown")
              /\ timestamp m = utcnow_isoformat L ++ "Z".
Proof.
  intros Hne.
  exists (chunk_ids d chunks),
         (chunk_metadatas d chunks src (utcnow_isoformat L ++ "Z")).
  split.
  { rewrite (store_document_chunks_run L d chunks src w Hne).
    destruct (coll_add L chunks _ _ (w_coll w)) as [[u|e] c']; reflexivity. }
  split; [apply chunk_ids_length|].
  split; [apply chunk_metadatas_length|].
  intros i Hi. split.
  { unfold chunk_ids. now rewrite nth_error_map_seq. }
  eexists. split.
  { unfold chunk_metadatas. now rewrite nth_error_map_seq. }
  simpl. repeat split.
  - intros s -> Hs. simpl. destruct s; [congruence | reflexivity].
  - intros [-> | ->]; reflexivity.
Qed.

Lemma store_assigns_ids_and_metadata_witness :
  [Demo.text; "second chunk"] <> []
  /\ exists ids metas,
       w_calls (snd (store_document_chunks Demo.working "doc_123"
                       [Demo.text; "second chunk"] None empty_world))
       = [CallAdd [Demo.text; "second chunk"] ids metas]
       /\ nth_error ids 1 = Some "doc_123_chunk_1"
       /\ exists m, nth_error metas 1 = Some m
                    /\ chunk_index m = 1
                    /\ source m = "unknown"
                    /\ timestamp m = "2024-01-01T00:00:00Z".
Proof.
  assert (Hne : [Demo.text; "second chunk"] <> []) by discriminate.
  split; [exact Hne|].
  destruct (store_assigns_ids_and_metadata Demo.working "doc_123"
              [Demo.text; "second chunk"] None empty_world Hne)
    as (ids & metas & Hcall & _ & _ & Hat).
  exists ids, metas. split; [exact Hcall|].
  destruct (Hat 1) as (Hid & m & Hm & _ & Hidx & _ & Habs & Hts);
    [simpl; lia|].
  split; [exact Hid|].
  exists m. split; [exact Hm|]. split; [exact Hidx|].
  split; [apply Habs; now left | exact Hts].
Defined.

(** [store_document_chunks] never raises. *)
Lemma store_document_chunks_returns (L : libraries) d chunks src w :
  exists r w', store_document_chunks L d chunks src w = (Returns r, w').
Proof.
  destruct chunks as [|c cs].
  - now eexists; eexists.
  - rewrite (store_document_chunks_run L d (c :: cs) src w) by discriminate.
    destruct (coll_add L (c :: cs) _ _ (w_coll w)) as [[u|e] c'];
      eexists; eexists; reflexivity.
Qed.

(** [store_document_chunks] only appends to the log. *)
Lemma store_document_chunks_log (L : libraries) d chunks src w :
  exists r w' extra,
    store_document_chunks L d chunks src w = (Returns r, w')
    /\ w_log w' = (w_log w ++ extra)%list.
Proof.
  destruct chunks as [|c cs].
  - do 3 eexists. split; reflexivity.
  - rewrite (store_document_chunks_run L d (c :: cs) src w) by discriminate.
    destruct (coll_add L (c :: cs) _ _ (w_coll w)) as [[u|e] c'];
      do 3 eexists; split; reflexivity.
Qed.

(** C1 (amended). For every non-empty chunk list, if the underlying index
    raises an error [e] during insert, [store_document_chunks] returns
    status "failed", [chunks_stored = 0] and the error string [str(e)]
    (non-empty whenever [str(e)] is), logs the failure, and does not raise;
    and [process_document], reaching the store with these chunks, raises
    a [ValueError] whose message carries the store's error string. *)
Theorem storage_failure_fails_ingest (L : libraries) (d : string)
        (chunks : list string) (src : option string) (w : world)
        (e : exn) (c' : collection_state) :
  chunks <> [] ->
  coll_add L chunks (chunk_ids d chunks)
           (chunk_metadatas d chunks src (utcnow_isoformat L ++ "Z"))
           (w_coll w) = (Raises e, c') ->
  (exists w',
     store_document_chunks L d chunks src w
     = (Returns (mk_store_result "failed" 0 (Some (exn_str e))), w')
     /\ In (ERROR, "Failed to store chunks for document " ++ d ++ ": "
                   ++ exn_str e) (w_log w'))
  /\ (forall p w0,
        src = Some (name p) ->
        w_coll w0 = w_coll w ->
        too_short (text_of L p) = false ->
        chunk_text L (text_of L p) (CHUNK_SIZE L) (CHUNK_OVERLAP L)
        = Returns chunks ->
        exists w',
          process_document L d p w0
          = (Raises (mk_exn ValueError
                            ("Failed to store document chunks: "
                             ++ exn_str e)), w')).
Proof.
  intros Hne Hadd. split.
  - rewrite (store_document_chunks_run L d chunks src w Hne).
    cbv zeta. rewrite Hadd. eexists. split; [reflexivity|].
    simpl. apply in_or_app. right. now left.
  - intros p w0 -> Hcoll Hlen Hchunks.
    destruct (process_document_run L d p w0) as [out Hrun].
    cbv zeta in Hrun. rewrite Hlen, Hchunks in Hrun.
    rewrite store_document_chunks_run in Hrun by exact Hne.
    cbv zeta in Hrun. unfold log_add in Hrun.
    cbn [w_coll w_calls w_log w_stdout] in Hrun.
    rewrite Hcoll, Hadd in Hrun.
    cbn [status error String.eqb Ascii.eqb Bool.eqb] in Hrun.
    eexists. exact Hrun.
Qed.

Lemma storage_failure_fails_ingest_witness :
  [Demo.text] <> []
  /\ coll_add Demo.failing [Demo.text] (chunk_ids "doc_1" [Demo.text])
       (chunk_metadatas "doc_1" [Demo.text] (Some "sample.pdf")
                        (utcnow_isoformat Demo.failing ++ "Z"))
       (w_coll empty_world) = (Raises Demo.refused, [])
  /\ fst (store_document_chunks Demo.failing "doc_1" [Demo.text]
            (Some "sample.pdf") empty_world)
     = Returns (mk_store_result "failed" 0 (Some "Connection refused"))
  /\ fst (process_document Demo.failing "doc_1" Demo.path empty_world)
     = Raises (mk_exn ValueError
                 "Failed to store document chunks: Connection refused").
Proof.
  assert (Hne : [Demo.text] <> []) by discriminate.
  assert (Hadd : coll_add Demo.failing [Demo.text]
                   (chunk_ids "doc_1" [Demo.text])
                   (chunk_metadatas "doc_1" [Demo.text] (Some "sample.pdf")
                      (utcnow_isoformat Demo.failing ++ "Z"))
                   (w_coll empty_world) = (Raises Demo.refused, []))
    by reflexivity.
  split; [exact Hne|]. split; [exact Hadd|].
  destruct (storage_failure_fails_ingest Demo.failing "doc_1" [Demo.text]
              (Some "sample.pdf") empty_world Demo.refused [] Hne Hadd)
    as [[w1 [Hs _]] Hp].
  split.
  - rewrite Hs. reflexivity.
  - destruct (Hp Demo.path empty_world) as [w2 Hw2];
      [reflexivity | reflexivity | vm_compute; reflexivity
       | vm_compute; reflexivity |].
    rewrite Hw2. reflexivity.
Defined.

(** C1, as stated, at an index whose error carries no text: the reported
    error string is empty. *)
Lemma store_failure_error_may_be_empty :
  exists r,
    fst (store_document_chunks Demo.silent "test_error" ["Test chunk"]
           (Some "error_test.pdf") empty_world) = Returns r
    /\ status r = "failed"
    /\ error r = Some "".
Proof. eexists. split; [reflexivity|]. split; reflexivity. Qed.

(** ** Claims about the retrieval facade *)

(** The restriction filter [search_documents] builds. *)
Lemma search_documents_run (L : libraries) q ids n w :
  let wh := match ids with
            | None => None
            | Some [] => None
            | Some (x :: xs) => Some (WhereDocumentIdIn (x :: xs))
            end in
  search_documents L q ids n w
  = (match coll_query L [q] n wh (w_coll w) with
     | Returns res =>
         Returns (mk_search_result
                    (first_or_empty (qr_documents res))
                    (first_or_empty (Some (qr_ids res)))
                    (first_or_empty (qr_metadatas res)))
     | Raises e => Raises e
     end,
     mk_world (w_coll w) (w_calls w ++ [CallQuery [q] n wh])
              (w_log w) (w_stdout w)).
Proof.
  cbv zeta. unfold search_documents, bind, collection_query.
  destruct (coll_query L [q] n _ (w_coll w)); reflexivity.
Qed.



(** The restriction carries every id of a non-empty list. *)
Lemma search_restricts_to_given_documents :
  w_calls (snd (search_documents Demo.working "machine learning"
                  (Some ["doc_a"; "doc_b"]) 5 empty_world))
  = [CallQuery ["machine learning"] 5
               (Some (WhereDocumentIdIn ["doc_a"; "doc_b"]))]
  /\ w_calls (snd (search_documents Demo.working "machine learning"
                     (Some ["doc_a"]) 5 empty_world))
     = [CallQuery ["machine learning"] 5
                  (Some (WhereDocumentIdIn ["doc_a"]))].
Proof. split; reflexivity. Qed.

(** C10. [search_documents] with [document_ids = []] is
    [search_documents] with no [document_ids]: the same outcome and the
    same final state, by one [query] call that carries no restriction. *)
Theorem search_empty_ids_is_unrestricted (L : libraries) (q : string)
        (n : Z) (w : world) :
  search_documents L q (Some []) n w = search_documents L q None n w
  /\ w_calls (snd (search_documents L q (Some []) n w))
     = (w_calls w ++ [CallQuery [q] n None])%list.
Proof.
  rewrite !search_documents_run. split; reflexivity.
Qed.

(** ** Claims about the chunker *)

(** C9. For every text that is empty or only whitespace, [chunk_text]
    returns the empty sequence and does not raise, whatever [chunk_size]
    and [chunk_overlap] are (the splitter is never reached). *)
Theorem chunk_text_blank_is_empty (L : libraries) (text : string)
        (chunk_size chunk_overlap : Z) :
  text = "" \/ PyStr.all_space text = true ->
  chunk_text L text chunk_size chunk_overlap = Returns [].
Proof.
  intros H. unfold chunk_text.
  assert (Hs : PyStr.strip text = "").
  { destruct H as [-> | H]; [reflexivity | now apply strip_all_space]. }
  rewrite Hs. simpl. now rewrite orb_true_r.
Qed.

Lemma chunk_text_blank_is_empty_witness :
  (Demo.blank = "" \/ PyStr.all_space Demo.blank = true)
  /\ chunk_text Demo.working Demo.blank 10 20 = Returns []
  /\ split_text Demo.working 10 20 separators Demo.blank
     = Raises (mk_exn ValueError "chunk overlap larger than chunk size").
Proof.
  assert (H : Demo.blank = "" \/ PyStr.all_space Demo.blank = true)
    by (right; reflexivity).
  split; [exact H|]. split; [|reflexivity].
  exact (chunk_text_blank_is_empty Demo.working Demo.blank 10 20 H).
Defined.

(** ** Claims about the text extractor *)

(** C8 (amended). [extract_text_from_pdf] never raises and touches
    neither the index nor the log.  If the source does not exist or
    cannot be opened, or a page's extraction fails, it returns the empty
    string; otherwise it returns the page texts in page order, joined by
    a blank line, with leading and trailing whitespace removed, which is
    the empty string when that text is only whitespace. *)
Theorem extract_text_never_raises (L : libraries) (p : Path) (w : world) :
  exists t w',
    extract_text_from_pdf L p w = (Returns t, w')
    /\ w_coll w' = w_coll w
    /\ w_calls w' = w_calls w
    /\ w_log w' = w_log w
    /\ match pdf_pages L (fspath p) with
       | Raises _ => t = ""
       | Returns pages =>
           match page_texts pages with
           | None => t = ""
           | Some ts =>
               t = if PyStr.all_space (PyStr.join PyStr.nl2 ts) then ""
                   else PyStr.strip (PyStr.join PyStr.nl2 ts)
           end
       end.
Proof.
  destruct (extract_text_from_pdf_run L p w) as [out Hrun].
  exists (text_of L p). eexists. split; [exact Hrun|].
  simpl. repeat (split; [reflexivity|]).
  rewrite text_of_pages.
  destruct (pdf_pages L (fspath p)) as [pages|e]; [|reflexivity].
  destruct (page_texts pages) as [ts|]; [|reflexivity].
  destruct (PyStr.all_space (PyStr.join PyStr.nl2 ts)) eqn:Hws;
    [now apply strip_all_space | reflexivity].
Qed.

(** C8, as stated, at a PDF of two pages [" A"] and ["B "]: the result
    is not the page texts joined by a blank line, since the outer
    whitespace is gone. *)
Lemma extract_text_trims_page_text :
  pdf_pages Demo.working "uploads/padded.pdf" = Returns [Returns " A"; Returns "B "]
  /\ fst (extract_text_from_pdf Demo.working
            (mk_path "uploads/padded.pdf" "padded.pdf") empty_world)
     = Returns ("A" ++ PyStr.nl2 ++ "B")
  /\ "A" ++ PyStr.nl2 ++ "B" <> PyStr.join PyStr.nl2 [" A"; "B "]
  /\ PyStr.all_space (PyStr.join PyStr.nl2 [" A"; "B "]) = false.
Proof.
  split; [reflexivity|]. split; [reflexivity|].
  split; [discriminate | reflexivity].
Qed.

(** ** Claims about the ingestion orchestrator *)

Lemma Raises_inj {A} {a b : exn} : @Raises A a = Raises b -> a = b.
Proof. intros H. now injection H. Qed.

(** The storage failure and the too-short failure are different errors. *)
Lemma storage_failure_not_too_short (msg : string) :
  mk_exn ValueError ("Failed to store document chunks: " ++ msg)
  <> DocumentTooShort.
Proof. unfold DocumentTooShort. simpl. intros H. discriminate H. Qed.

(** C2. [process_document] fails with [DocumentTooShort] exactly when the
    extracted text is empty or shorter than 100 characters; in that case
    the index has received no call, the collection is unchanged and the
    log holds no record of the insert path, and otherwise the text goes
    on to the chunker.  The splitter, a library, is taken not to raise
    the orchestrator's own error. *)
Theorem short_document_rejected_before_store (L : libraries) (d : string)
        (p : Path) (w : world) :
  (forall t, split_text L (CHUNK_SIZE L) (CHUNK_OVERLAP L) separators t
             <> Raises DocumentTooShort) ->
  ((exists w', process_document L d p w = (Raises DocumentTooShort, w'))
   <-> (text_of L p = "" \/ PyStr.len (text_of L p) < 100))
  /\ (text_of L p = "" \/ PyStr.len (text_of L p) < 100 ->
      w_calls (snd (process_document L d p w)) = w_calls w
      /\ w_coll (snd (process_document L d p w)) = w_coll w
      /\ w_log (snd (process_document L d p w))
         = w_log (log_add w
             [(INFO, "Processing document " ++ d ++ " from " ++ name p);
              (ERROR, "Document " ++ d ++ " is too short or empty")]))
  /\ (100 <= PyStr.len (text_of L p) ->
      In (INFO, "Extracted " ++ PyStr.of_nat (PyStr.len (text_of L p))
                ++ " characters from " ++ name p)
         (w_log (snd (process_document L d p w)))).
Proof.
  intros Hsplit.
  destruct (process_document_run L d p w) as [out Hrun]. cbv zeta in Hrun.
  rewrite Hrun. clear Hrun.
  pose proof (too_short_spec (text_of L p)) as Hts.
  destruct (too_short (text_of L p)) eqn:Hshort.
  - assert (Hs : text_of L p = "" \/ PyStr.len (text_of L p) < 100)
      by now apply Hts.
    split; [split; [intros _; exact Hs | intros _; eexists; reflexivity]|].
    split.
    { intros _. split; [reflexivity|]. split; [reflexivity|].
      unfold log_add. cbn [snd w_log]. now rewrite <- app_assoc. }
    intros Hlen. exfalso. destruct Hs as [Hs | Hs]; [|lia].
    rewrite Hs in Hlen. simpl in Hlen. lia.
  - assert (Hlong : ~ (text_of L p = "" \/ PyStr.len (text_of L p) < 100)).
    { intros Hs. apply Hts in Hs. discriminate Hs. }
    split; [|split; [intros Hs; now destruct Hlong|]].
    + split; [|intros Hs; now destruct Hlong].
      intros [w' Hw']. exfalso.
      unfold chunk_text in Hw'.
      destruct (negb (PyStr.truthy (text_of L p))
                || negb (PyStr.truthy (PyStr.strip (text_of L p)))).
      * simpl in Hw'. discriminate Hw'.
      * destruct (split_text L (CHUNK_SIZE L) (CHUNK_OVERLAP L) separators
                             (text_of L p)) as [chunks|e] eqn:Hsp.
        -- match type of Hw' with
           | context [store_document_chunks L d chunks ?s ?w0] =>
               destruct (store_document_chunks_returns L d chunks s w0)
                 as (r & w4 & Hst)
           end.
           rewrite Hst in Hw'.
           destruct (String.eqb (status r) "failed"); [|discriminate Hw'].
           apply (f_equal fst) in Hw'. cbn [fst] in Hw'.
           exact (storage_failure_not_too_short _ (Raises_inj Hw')).
        -- apply (f_equal fst) in Hw'. cbn [fst] in Hw'.
           rewrite (Raises_inj Hw') in Hsp. exact (Hsplit _ Hsp).
    + intros _.
      destruct (chunk_text L (text_of L p) (CHUNK_SIZE L) (CHUNK_OVERLAP L))
        as [chunks|e].
      * match goal with
        | |- context [store_document_chunks L d chunks ?s ?w0] =>
            destruct (store_document_chunks_log L d chunks s w0)
              as (r & w4 & extra & Hst & Hlog)
        end.
        rewrite Hst.
        assert (Hin : In (INFO, "Extracted "
                                ++ PyStr.of_nat (PyStr.len (text_of L p))
                                ++ " characters from " ++ name p) (w_log w4)).
        { rewrite Hlog. unfold log_add. cbn [w_log].
          apply in_or_app. left. apply in_or_app. left.
          apply in_or_app. right. now left. }
        destruct (String.eqb (status r) "failed"); unfold log_add;
          cbn [snd w_log]; apply in_or_app; left; exact Hin.
      * simpl. apply in_or_app. right. now left.
Qed.

Lemma short_document_rejected_before_store_witness :
  (forall t, split_text Demo.working (CHUNK_SIZE Demo.working)
                        (CHUNK_OVERLAP Demo.working) separators t
             <> Raises DocumentTooShort)
  /\ PyStr.len (text_of Demo.working Demo.short_path) < 100
  /\ (exists w', process_document Demo.working "doc_2" Demo.short_path
                                  empty_world
                 = (Raises DocumentTooShort, w'))
  /\ w_calls (snd (process_document Demo.working "doc_2" Demo.short_path
                                    empty_world)) = []
  /\ w_coll (snd (process_document Demo.working "doc_2" Demo.short_path
                                   empty_world)) = [].
Proof.
  assert (Hsplit : forall t,
             split_text Demo.working (CHUNK_SIZE Demo.working)
                        (CHUNK_OVERLAP Demo.working) separators t
             <> Raises DocumentTooShort)
    by (intros t; simpl; discriminate).
  assert (Hlen : PyStr.len (text_of Demo.working Demo.short_path) < 100)
    by (vm_compute; lia).
  split; [exact Hsplit|]. split; [exact Hlen|].
  destruct (short_document_rejected_before_store Demo.working "doc_2"
              Demo.short_path empty_world Hsplit) as (Hiff & Hstore & _).
  split; [apply Hiff; now right|].
  destruct (Hstore (or_intror Hlen)) as (Hcalls & Hcoll & _).
  split; [exact Hcalls | exact Hcoll].
Defined.

(** ** The composite identity key *)

Section KeyFacts.

Import PyStr.

Lemma rev_rev (s : string) : rev (rev s) = s.
Proof.
  induction s as [|x s IH]; simpl; [reflexivity|].
  now rewrite rev_app, IH.
Qed.

Lemma append_inv_tail (a b c : string) : a ++ c = b ++ c -> a = b.
Proof.
  intros H. apply (f_equal rev) in H. rewrite !rev_app in H.
  apply append_inv_head in H.
  rewrite <- (rev_rev a), <- (rev_rev b). now f_equal.
Qed.

Lemma has_char_app_here (c : ascii) (b y : string) :
  has_char c (b ++ String c y) = true.
Proof.
  induction b as [|z b IH]; simpl.
  - now rewrite Ascii.eqb_refl.
  - rewrite IH. apply orb_true_r.
Qed.

(** Splitting at the last occurrence of a character is unambiguous. *)
Lemma split_at_last (c : ascii) (a b x y : string) :
  has_char c x = false -> has_char c y = false ->
  a ++ String c x = b ++ String c y -> a = b /\ x = y.
Proof.
  intros Hx Hy. revert b.
  induction a as [|u a IH]; intros [|v b] H; simpl in H.
  - injection H as H. now split.
  - injection H as _ H. subst x.
    rewrite has_char_app_here in Hx. discriminate Hx.
  - injection H as _ H. subst y.
    rewrite has_char_app_here in Hy. discriminate Hy.
  - injection H as Hu H. destruct (IH b H) as [-> ->]. now subst.
Qed.

(** A decimal numeral holds no underscore. *)
Lemma of_nat_no_underscore (i : nat) : has_char "_" (of_nat i) = false.
Proof.
  unfold of_nat. induction (Nat.to_uint i); simpl; auto.
Qed.

Lemma of_nat_inj (i j : nat) : of_nat i = of_nat j -> i = j.
Proof.
  unfold of_nat. intros H. apply Unsigned.to_uint_inj.
  apply (f_equal NilEmpty.uint_of_string) in H.
  rewrite !NilEmpty.usu in H. now injection H.
Qed.

(** The key determines the document and the position. *)
Lemma chunk_id_inj (d d' : string) (i j : nat) :
  chunk_id d i = chunk_id d' j -> d = d' /\ i = j.
Proof.
  assert (Hk : forall x n,
             chunk_id x n = (x ++ "_chunk") ++ String "_" (of_nat n)).
  { intros x n. unfold chunk_id. now rewrite append_assoc. }
  rewrite !Hk. intros H.
  apply split_at_last in H; try apply of_nat_no_underscore.
  destruct H as [Hd Hi]. split.
  - now apply append_inv_tail in Hd.
  - now apply of_nat_inj.
Qed.

End KeyFacts.

(** ** Batches and the in-memory index *)

Section BatchFacts.

Lemma filter_Permutation {A} (f : A -> bool) (l l' : list A) :
  Permutation l l' -> Permutation (filter f l) (filter f l').
Proof.
  induction 1 as [|x l l' _ IH|x y l|l l' l'' _ IH1 _ IH2]; simpl.
  - constructor.
  - destruct (f x); [now constructor | exact IH].
  - destruct (f x), (f y); try reflexivity. constructor.
  - now transitivity (filter f l').
Qed.

Lemma filter_none {A} (f : A -> bool) (l : list A) :
  (forall x, In x l -> f x = false) -> filter f l = [].
Proof.
  induction l as [|x l IH]; intros H; simpl; [reflexivity|].
  rewrite (H x) by now left. apply IH. intros y Hy. apply H. now right.
Qed.

Lemma filter_all {A} (f : A -> bool) (l : list A) :
  (forall x, In x l -> f x = true) -> filter f l = l.
Proof.
  induction l as [|x l IH]; intros H; simpl; [reflexivity|].
  rewrite (H x) by now left. f_equal. apply IH. intros y Hy.
  apply H. now right.
Qed.

Variables (f : nat -> string) (g : nat -> metadata).

(** The batch built over the positions of [chunks], from [s] on. *)
Lemma batch_documents chunks s :
  map r_document (batch chunks (map f (seq s (length chunks)))
                        (map g (seq s (length chunks)))) = chunks.
Proof.
  revert s. induction chunks as [|t chunks IH]; intros s; simpl.
  - reflexivity.
  - now rewrite IH.
Qed.

Lemma batch_in chunks s r :
  In r (batch chunks (map f (seq s (length chunks)))
              (map g (seq s (length chunks)))) ->
  exists i t, In t chunks /\ r = mk_record (f i) t (g i).
Proof.
  revert s. induction chunks as [|t chunks IH]; intros s; simpl.
  - intros [].
  - intros [<- | Hin].
    + exists s, t. split; [now left | reflexivity].
    + destruct (IH _ Hin) as (i & t' & Ht' & ->).
      exists i, t'. split; [now right | reflexivity].
Qed.

End BatchFacts.

(** What [store_document_chunks] hands to the index, record by record. *)
Lemma store_batch_in (d : string) (chunks : list string)
      (src : option string) (ts : string) (r : chunk_record) :
  In r (batch chunks (chunk_ids d chunks) (chunk_metadatas d chunks src ts)) ->
  exists i t,
    In t chunks
    /\ r = mk_record (chunk_id d i) t
                     (mk_metadata d i (source_or_unknown src) ts).
Proof. unfold chunk_ids, chunk_metadatas. apply batch_in. Qed.

Lemma chunk_ids_NoDup (d : string) (chunks : list string) :
  NoDup (chunk_ids d chunks).
Proof.
  unfold chunk_ids. apply Injective_map_NoDup; [|apply seq_NoDup].
  intros i j H. now apply chunk_id_inj in H.
Qed.

(** The in-memory index honours the contract, failing or not. *)
Lemma Mem_contract files fail : provider_contract (Mem.libs files fail).
Proof.
  constructor.
  - intros docs ids metas c r c' H x Hx. simpl in H. unfold Mem.add in H.
    destruct fail; injection H as _ <-; [now left|].
    now apply in_app_or in Hx.
  - intros docs ids metas c c' H _ _. simpl in H. unfold Mem.add in H.
    destruct fail; [discriminate H|]. injection H as <-. reflexivity.
  - intros D c. eexists. split; [reflexivity|]. reflexivity.
Qed.

(** ** Claims about what the store comes to hold *)


(** Whatever the store holds after an insert was there before or is a
    record of the batch. *)
Lemma store_document_chunks_coll (L : libraries) d chunks src w r :
  provider_contract L ->
  In r (w_coll (snd (store_document_chunks L d chunks src w))) ->
  In r (w_coll w)
  \/ In r (batch chunks (chunk_ids d chunks)
                 (chunk_metadatas d chunks src (utcnow_isoformat L ++ "Z"))).
Proof.
  intros HL. destruct chunks as [|c cs]; [now left|].
  rewrite (store_document_chunks_run L d (c :: cs) src w) by discriminate.
  destruct (coll_add L (c :: cs) _ _ (w_coll w)) as [o c'] eqn:Hadd.
  intros Hin. apply (add_only_batch L HL _ _ _ _ _ _ Hadd).
  destruct o; exact Hin.
Qed.

(** Inserts keep every record keyed by its composite identity. *)
Lemma store_document_chunks_well_keyed (L : libraries) d chunks src w :
  provider_contract L ->
  well_keyed (w_coll w) ->
  well_keyed (w_coll (snd (store_document_chunks L d chunks src w))).
Proof.
  intros HL Hw r Hr.
  destruct (store_document_chunks_coll L d chunks src w r HL Hr) as [H|H].
  - now apply Hw.
  - apply store_batch_in in H. destruct H as (i & t & _ & ->). reflexivity.
Qed.




(** C3. For every non-empty chunk sequence [chunks] and document id [d],
    from a store that holds no chunk of [d], an insert that reports
    success followed by [get_all_chunks_for_documents([d])] returns
    exactly [len(chunks)] texts whose set is the set of [chunks] (they
    are [chunks] up to order).  The index is one that honours the
    provider contract and the store one keyed as the pipeline keys it. *)
Theorem store_then_get_all_roundtrip (L : libraries) (d : string)
        (chunks : list string) (src : option string) (w : world) :
  provider_contract L ->
  chunks <> [] ->
  well_keyed (w_coll w) ->
  no_chunks_for d (w_coll w) ->
  fst (store_document_chunks L d chunks src w)
  = Returns (mk_store_result "success" (length chunks) None) ->
  exists texts w2,
    get_all_chunks_for_documents L [d]
      (snd (store_document_chunks L d chunks src w)) = (Returns texts, w2)
    /\ length texts = length chunks
    /\ (forall t, In t texts <-> In t chunks)
    /\ Permutation texts chunks.
Proof.
  intros HL Hne Hkey Hnone Hok.
  rewrite (store_document_chunks_run L d chunks src w Hne) in Hok |- *.
  cbv zeta in Hok |- *.
  set (ids := chunk_ids d chunks) in *.
  set (metas := chunk_metadatas d chunks src (utcnow_isoformat L ++ "Z")) in *.
  destruct (coll_add L chunks ids metas (w_coll w)) as [[[]|e] c'] eqn:Hadd;
    [|discriminate Hok].
  cbn [snd]. unfold get_all_chunks_for_documents, bind, collection_get.
  cbn [w_coll w_calls w_log w_stdout].
  destruct (get_by_document L HL [d] c') as (res & Hget & Hperm).
  rewrite Hget. unfold ret.
  assert (Hfresh : forall x, In x (w_coll w) -> ~ In (r_id x) ids).
  { intros x Hx Hin. unfold ids, chunk_ids in Hin.
    apply in_map_iff in Hin. destruct Hin as (i & Hi & _).
    rewrite (Hkey x Hx) in Hi. apply chunk_id_inj in Hi.
    destruct Hi as [Hd _]. now apply (Hnone x Hx). }
  pose proof (add_stores_batch L HL _ _ _ _ _ Hadd
                (chunk_ids_NoDup d chunks) Hfresh) as Hstored.
  assert (Hold : filter (doc_in [d]) (w_coll w) = []).
  { apply filter_none. intros x Hx. unfold doc_in. simpl.
    rewrite orb_false_r. apply String.eqb_neq. now apply Hnone. }
  assert (Hnew : filter (doc_in [d]) (batch chunks ids metas)
                 = batch chunks ids metas).
  { apply filter_all. intros x Hx. apply store_batch_in in Hx.
    destruct Hx as (i & t & _ & ->). unfold doc_in. simpl.
    now rewrite String.eqb_refl. }
  assert (Hall : Permutation (documents_or_empty res) chunks).
  { rewrite Hperm.
    rewrite (filter_Permutation (doc_in [d]) _ _ Hstored).
    rewrite filter_app, Hold, Hnew. simpl.
    unfold ids, metas, chunk_ids, chunk_metadatas.
    now rewrite batch_documents. }
  exists (documents_or_empty res). eexists. split; [reflexivity|].
  split; [now apply Permutation_length|].
  split; [|exact Hall].
  intros t. split; intros Ht.
  - now apply (Permutation_in _ Hall).
  - now apply (Permutation_in _ (Permutation_sym Hall)).
Qed.

Lemma store_then_get_all_roundtrip_witness :
  provider_contract Demo.working
  /\ [Demo.text; "second chunk"] <> []
  /\ well_keyed (w_coll Demo.stocked)
  /\ no_chunks_for "doc_5" (w_coll Demo.stocked)
  /\ exists texts w2,
       get_all_chunks_for_documents Demo.working ["doc_5"]
         (snd (store_document_chunks Demo.working "doc_5"
                 [Demo.text; "second chunk"] None Demo.stocked))
       = (Returns texts, w2)
       /\ length texts = 2
       /\ Permutation texts [Demo.text; "second chunk"].
Proof.
  assert (HL : provider_contract Demo.working) by apply Mem_contract.
  assert (Hne : [Demo.text; "second chunk"] <> []) by discriminate.
  assert (Hkey : well_keyed (w_coll Demo.stocked)).
  { intros r [<- | []]. reflexivity. }
  assert (Hnone : no_chunks_for "doc_5" (w_coll Demo.stocked)).
  { intros r [<- | []]. simpl. discriminate. }
  split; [exact HL|]. split; [exact Hne|].
  split; [exact Hkey|]. split; [exact Hnone|].
  destruct (store_then_get_all_roundtrip Demo.working "doc_5"
              [Demo.text; "second chunk"] None Demo.stocked
              HL Hne Hkey Hnone eq_refl)
    as (texts & w2 & Hget & Hlen & _ & Hperm).
  exists texts, w2. split; [exact Hget|]. split; [exact Hlen | exact Hperm].
Defined.

(** * Further properties of the pipeline *)

(** ** [strip] *)

Section StripFacts.

Import PyStr.

Lemma lstrip_idem (s : string) : lstrip (lstrip s) = lstrip s.
Proof.
  induction s as [|c s IH]; simpl; [reflexivity|].
  destruct (isspace c) eqn:Hc; [exact IH|]. simpl. now rewrite Hc.
Qed.

Lemma lstrip_length (s : string) : String.length (lstrip s) <= String.length s.
Proof.
  induction s as [|c s IH]; simpl; [lia|].
  destruct (isspace c); simpl; lia.
Qed.

(** A string that [lstrip] leaves alone is empty or starts with a
    character that is not whitespace. *)
Lemma lstrip_fixed_head (c : ascii) (r : string) :
  lstrip (String c r) = String c r -> isspace c = false.
Proof.
  simpl. destruct (isspace c); [|reflexivity].
  intros H. pose proof (lstrip_length r) as Hl. rewrite H in Hl.
  simpl in Hl. lia.
Qed.

Lemma rstrip_keeps_head (x : string) :
  lstrip x = x -> lstrip (rstrip x) = rstrip x.
Proof.
  destruct x as [|c r]; [reflexivity|].
  intros H. apply lstrip_fixed_head in H.
  unfold rstrip. simpl rev. rewrite lstrip_app.
  assert (Hc : lstrip (String c "") = String c "") by (simpl; now rewrite H).
  destruct (all_space (rev r)).
  - rewrite Hc. simpl. now rewrite H.
  - rewrite rev_app. simpl. now rewrite H.
Qed.

Lemma rstrip_idem (x : string) : rstrip (rstrip x) = rstrip x.
Proof. unfold rstrip. now rewrite rev_rev, lstrip_idem. Qed.

Lemma strip_idem (s : string) : strip (strip s) = strip s.
Proof.
  unfold strip.
  rewrite (rstrip_keeps_head (lstrip s) (lstrip_idem s)).
  apply rstrip_idem.
Qed.

End StripFacts.

(** ** The text extractor, further *)

Lemma text_of_stripped (L : libraries) (p : Path) :
  PyStr.strip (text_of L p) = text_of L p.
Proof.
  rewrite text_of_pages.
  destruct (pdf_pages L (fspath p)) as [pages|e]; [|reflexivity].
  destruct (page_texts pages); [apply strip_idem | reflexivity].
Qed.

(** X1. The text [extract_text_from_pdf] returns never starts or ends
    with whitespace: stripping it again changes nothing, and a result
    made of whitespace only is the empty string. *)
Theorem extracted_text_is_stripped (L : libraries) (p : Path) (w : world) :
  exists t w',
    extract_text_from_pdf L p w = (Returns t, w')
    /\ PyStr.strip t = t
    /\ (if PyStr.all_space t then t = "" else t <> "").
Proof.
  destruct (extract_text_from_pdf_run L p w) as [out Hrun].
  exists (text_of L p). eexists. split; [exact Hrun|].
  split; [apply text_of_stripped|].
  destruct (PyStr.all_space (text_of L p)) eqn:Hws.
  - rewrite <- text_of_stripped. now apply strip_all_space.
  - intros H. rewrite H in Hws. discriminate Hws.
Qed.



(** ** The ingestion orchestrator, further *)

(** Within [process_document] the blank-text guard of [chunk_text] never
    fires: a text that passes the length test is not blank. *)
Lemma chunk_text_of_long_text (L : libraries) (p : Path) (cs co : Z) :
  too_short (text_of L p) = false ->
  chunk_text L (text_of L p) cs co
  = split_text L cs co separators (text_of L p).
Proof.
  intros H. unfold too_short in H. apply orb_false_iff in H.
  destruct H as [H _]. unfold chunk_text.
  now rewrite text_of_stripped, H.
Qed.

(** The result of an insert has one of two shapes. *)
Lemma store_result_cases (L : libraries) d chunks src w :
  exists r w',
    store_document_chunks L d chunks src w = (Returns r, w')
    /\ ((status r = "success" /\ error r = None
         /\ chunks_stored r = length chunks)
        \/ (status r = "failed" /\ chunks_stored r = 0
            /\ chunks <> [] /\ exists msg, error r = Some msg)).
Proof.
  destruct chunks as [|c cs].
  - do 2 eexists. split; [reflexivity|]. left. now repeat split.
  - rewrite (store_document_chunks_run L d (c :: cs) src w) by discriminate.
    destruct (coll_add L (c :: cs) _ _ (w_coll w)) as [[u|e] c'];
      do 2 eexists; (split; [reflexivity|]).
    + left. now repeat split.
    + right. repeat split; [discriminate|]. now eexists.
Qed.

(** X3. An insert reports either success, with no error and
    [chunks_stored = len(chunks)], or failure, with [chunks_stored = 0]
    and an error string; it never raises, and an empty chunk list never
    fails. *)
Theorem store_result_shape (L : libraries) (d : string)
        (chunks : list string) (src : option string) (w : world) :
  exists r w',
    store_document_chunks L d chunks src w = (Returns r, w')
    /\ ((status r = "success" /\ error r = None
         /\ chunks_stored r = length chunks)
        \/ (status r = "failed" /\ chunks_stored r = 0
            /\ chunks <> [] /\ exists msg, error r = Some msg)).
Proof. apply store_result_cases. Qed.

(** X4. When the extracted text passes the length test, the splitter
    yields chunks and the index accepts the batch, [process_document]
    returns [chunks_count = len(chunks)] and status "success", having
    made exactly one call to the index: the batch insert of the chunks
    under the file's name. *)
Theorem process_document_success (L : libraries) (d : string) (p : Path)
        (w : world) (chunks : list string) (c' : collection_state) :
  too_short (text_of L p) = false ->
  split_text L (CHUNK_SIZE L) (CHUNK_OVERLAP L) separators (text_of L p)
  = Returns chunks ->
  chunks <> [] ->
  coll_add L chunks (chunk_ids d chunks)
           (chunk_metadatas d chunks (Some (name p))
                            (utcnow_isoformat L ++ "Z"))
           (w_coll w) = (Returns tt, c') ->
  exists w',
    process_document L d p w
    = (Returns (mk_process_result (length chunks) "success"), w')
    /\ w_coll w' = c'
    /\ w_calls w'
       = (w_calls w
          ++ [CallAdd chunks (chunk_ids d chunks)
                      (chunk_metadatas d chunks (Some (name p))
                                       (utcnow_isoformat L ++ "Z"))])%list.
Proof.
  intros Hlen Hsplit Hne Hadd.
  destruct (process_document_run L d p w) as [out Hrun].
  cbv zeta in Hrun.
  rewrite Hlen, (chunk_text_of_long_text L p _ _ Hlen), Hsplit in Hrun.
  rewrite store_document_chunks_run in Hrun by exact Hne.
  cbv zeta in Hrun. unfold log_add in Hrun.
  cbn [w_coll w_calls w_log w_stdout] in Hrun. rewrite Hadd in Hrun.
  cbn [status chunks_stored String.eqb Ascii.eqb Bool.eqb] in Hrun.
  eexists. split; [exact Hrun|]. split; reflexivity.
Qed.

Lemma process_document_success_witness :
  too_short (text_of Demo.working Demo.path) = false
  /\ [Demo.text] <> []
  /\ exists w',
       process_document Demo.working "doc_6" Demo.path empty_world
       = (Returns (mk_process_result 1 "success"), w')
       /\ map r_document (w_coll w') = [Demo.text].
Proof.
  assert (Hlen : too_short (text_of Demo.working Demo.path) = false)
    by (vm_compute; reflexivity).
  assert (Hne : [Demo.text] <> []) by discriminate.
  split; [exact Hlen|]. split; [exact Hne|].
  destruct (process_document_success Demo.working "doc_6" Demo.path
              empty_world [Demo.text]
              (batch [Demo.text] (chunk_ids "doc_6" [Demo.text])
                     (chunk_metadatas "doc_6" [Demo.text] (Some "sample.pdf")
                        "2024-01-01T00:00:00Z"))
              Hlen) as (w' & Hrun & Hcoll & _);
    [vm_compute; reflexivity | exact Hne | reflexivity |].
  exists w'. split; [exact Hrun|]. rewrite Hcoll. reflexivity.
Defined.

(** X5. [process_document] never returns a failed status: whenever it
    returns, the text passed the length test, the splitter returned, the
    status is "success" and [chunks_count] is the number of chunks the
    splitter produced. *)
Theorem process_document_returns_only_success (L : libraries) (d : string)
        (p : Path) (w w' : world) (r : process_result) :
  process_document L d p w = (Returns r, w') ->
  p_status r = "success"
  /\ too_short (text_of L p) = false
  /\ exists chunks,
       split_text L (CHUNK_SIZE L) (CHUNK_OVERLAP L) separators (text_of L p)
       = Returns chunks
       /\ chunks_count r = length chunks.
Proof.
  intros Hret.
  destruct (process_document_run L d p w) as [out Hrun].
  cbv zeta in Hrun. rewrite Hrun in Hret. clear Hrun.
  destruct (too_short (text_of L p)) eqn:Hlen; [discriminate Hret|].
  rewrite (chunk_text_of_long_text L p _ _ Hlen) in Hret.
  destruct (split_text L (CHUNK_SIZE L) (CHUNK_OVERLAP L) separators
                       (text_of L p)) as [chunks|e]; [|discriminate Hret].
  match type of Hret with
  | context [store_document_chunks L d chunks ?s ?w0] =>
      destruct (store_result_cases L d chunks s w0) as (sr & w4 & Hst & Hsh)
  end.
  rewrite Hst in Hret.
  destruct Hsh as [(Hs & _ & Hn) | (Hs & _)]; rewrite Hs in Hret;
    cbn [String.eqb Ascii.eqb Bool.eqb] in Hret; [|discriminate Hret].
  apply (f_equal fst) in Hret. cbn [fst] in Hret.
  injection Hret as <-. cbn [p_status chunks_count].
  split; [reflexivity|]. split; [reflexivity|].
  exists chunks. split; [reflexivity | exact Hn].
Qed.

Lemma process_document_returns_only_success_witness :
  exists r w',
    process_document Demo.working "doc_6" Demo.path empty_world
    = (Returns r, w')
    /\ p_status r = "success"
    /\ chunks_count r = 1.
Proof.
  assert (Hrun : process_document Demo.working "doc_6" Demo.path empty_world
                 = (Returns (mk_process_result 1 "success"),
                    snd (process_document Demo.working "doc_6" Demo.path
                                          empty_world)))
    by (vm_compute; reflexivity).
  destruct (process_document_returns_only_success _ _ _ _ _ _ Hrun)
    as (Hs & _ & _).
  do 2 eexists. split; [exact Hrun|]. split; [exact Hs | reflexivity].
Defined.

(** X6. An error of the splitter leaves [process_document] as it is: the
    caller sees the splitter's own exception, the index has received no
    call and the collection is unchanged. *)
Theorem process_document_splitter_error (L : libraries) (d : string)
        (p : Path) (w : world) (e : exn) :
  too_short (text_of L p) = false ->
  split_text L (CHUNK_SIZE L) (CHUNK_OVERLAP L) separators (text_of L p)
  = Raises e ->
  exists w',
    process_document L d p w = (Raises e, w')
    /\ w_calls w' = w_calls w
    /\ w_coll w' = w_coll w.
Proof.
  intros Hlen Hsplit.
  destruct (process_document_run L d p w) as [out Hrun].
  cbv zeta in Hrun.
  rewrite Hlen, (chunk_text_of_long_text L p _ _ Hlen), Hsplit in Hrun.
  eexists. split; [exact Hrun|]. split; reflexivity.
Qed.

Lemma process_document_splitter_error_witness :
  too_short (text_of Extra.broken_splitter Demo.path) = false
  /\ fst (process_document Extra.broken_splitter "doc_7" Demo.path
                           empty_world) = Raises Extra.bad_sizes
  /\ w_calls (snd (process_document Extra.broken_splitter "doc_7" Demo.path
                                    empty_world)) = [].
Proof.
  assert (Hlen : too_short (text_of Extra.broken_splitter Demo.path) = false)
    by (vm_compute; reflexivity).
  split; [exact Hlen|].
  destruct (process_document_splitter_error Extra.broken_splitter "doc_7"
              Demo.path empty_world Extra.bad_sizes Hlen eq_refl)
    as (w' & Hrun & Hcalls & _).
  rewrite Hrun. split; [reflexivity | exact Hcalls].
Defined.

(** X7. When the splitter finds no chunk in a text that passed the
    length test, [process_document] succeeds with [chunks_count = 0]
    and never calls the index. *)
Theorem process_document_no_chunks (L : libraries) (d : string) (p : Path)
        (w : world) :
  too_short (text_of L p) = false ->
  split_text L (CHUNK_SIZE L) (CHUNK_OVERLAP L) separators (text_of L p)
  = Returns [] ->
  exists w',
    process_document L d p w = (Returns (mk_process_result 0 "success"), w')
    /\ w_calls w' = w_calls w
    /\ w_coll w' = w_coll w.
Proof.
  intros Hlen Hsplit.
  destruct (process_document_run L d p w) as [out Hrun].
  cbv zeta in Hrun.
  rewrite Hlen, (chunk_text_of_long_text L p _ _ Hlen), Hsplit in Hrun.
  eexists. split; [exact Hrun|]. split; reflexivity.
Qed.

Lemma process_document_no_chunks_witness :
  too_short (text_of Extra.no_chunks Demo.path) = false
  /\ fst (process_document Extra.no_chunks "doc_8" Demo.path empty_world)
     = Returns (mk_process_result 0 "success")
  /\ w_calls (snd (process_document Extra.no_chunks "doc_8" Demo.path
                                    empty_world)) = [].
Proof.
  assert (Hlen : too_short (text_of Extra.no_chunks Demo.path) = false)
    by (vm_compute; reflexivity).
  split; [exact Hlen|].
  destruct (process_document_no_chunks Extra.no_chunks "doc_8" Demo.path
              empty_world Hlen eq_refl) as (w' & Hrun & Hcalls & _).
  rewrite Hrun. split; [reflexivity | exact Hcalls].
Defined.



(** X20. [process_document] fails in three ways only: with the
    too-short error; with the splitter's own error; or, when the index
    refuses the batch, with a [ValueError] whose message is
    "Failed to store document chunks: " followed by the text of the
    index's error.  An error of the index never reaches the caller as it
    is. *)
Theorem process_document_failures (L : libraries) (d : string) (p : Path)
        (w w' : world) (e : exn) :
  process_document L d p w = (Raises e, w') ->
  (too_short (text_of L p) = true /\ e = DocumentTooShort)
  \/ (too_short (text_of L p) = false
      /\ split_text L (CHUNK_SIZE L) (CHUNK_OVERLAP L) separators
                    (text_of L p) = Raises e)
  \/ (too_short (text_of L p) = false
      /\ exists chunks ie c',
           split_text L (CHUNK_SIZE L) (CHUNK_OVERLAP L) separators
                      (text_of L p) = Returns chunks
           /\ coll_add L chunks (chunk_ids d chunks)
                 (chunk_metadatas d chunks (Some (name p))
                                  (utcnow_isoformat L ++ "Z"))
                 (w_coll w) = (Raises ie, c')
           /\ e = mk_exn ValueError
                         ("Failed to store document chunks: " ++ exn_str ie)).
Proof.
  intros Hret.
  destruct (process_document_run L d p w) as [out Hrun].
  cbv zeta in Hrun. rewrite Hrun in Hret. clear Hrun.
  destruct (too_short (text_of L p)) eqn:Hlen.
  { left. split; [reflexivity|].
    apply (f_equal fst) in Hret. cbn [fst] in Hret.
    now rewrite (Raises_inj Hret). }
  right. rewrite (chunk_text_of_long_text L p _ _ Hlen) in Hret.
  destruct (split_text L (CHUNK_SIZE L) (CHUNK_OVERLAP L) separators
                       (text_of L p)) as [chunks|se].
  2:{ left. split; [reflexivity|].
      apply (f_equal fst) in Hret. cbn [fst] in Hret.
      now rewrite (Raises_inj Hret). }
  right. split; [reflexivity|].
  destruct chunks as [|c cs]; [discriminate Hret|].
  rewrite store_document_chunks_run in Hret by discriminate.
  cbv zeta in Hret. unfold log_add in Hret.
  cbn [w_coll w_calls w_log w_stdout] in Hret.
  destruct (coll_add L (c :: cs) _ _ (w_coll w)) as [[u|ie] c'] eqn:Hadd;
    [discriminate Hret|].
  cbn [status error String.eqb Ascii.eqb Bool.eqb] in Hret.
  exists (c :: cs), ie, c'. split; [reflexivity|]. split; [exact Hadd|].
  apply (f_equal fst) in Hret. cbn [fst] in Hret.
  now rewrite (Raises_inj Hret).
Qed.

Lemma process_document_failures_witness :
  process_document Demo.failing "doc_1" Demo.path empty_world
  = (Raises (mk_exn ValueError
               "Failed to store document chunks: Connection refused"),
     snd (process_document Demo.failing "doc_1" Demo.path empty_world))
  /\ too_short (text_of Demo.failing Demo.path) = false.
Proof.
  assert (Hrun : process_document Demo.failing "doc_1" Demo.path empty_world
                 = (Raises (mk_exn ValueError
                      "Failed to store document chunks: Connection refused"),
                    snd (process_document Demo.failing "doc_1" Demo.path
                                          empty_world)))
    by (vm_compute; reflexivity).
  split; [exact Hrun|].
  destruct (process_document_failures _ _ _ _ _ _ Hrun)
    as [[Hs He] | [[Hs _] | [Hs _]]]; [discriminate He | exact Hs | exact Hs].
Defined.

(** ** Keys and documents *)

Lemma chunk_ids_nth (d : string) (chunks : list string) (i : nat)
      (key : string) :
  nth_error (chunk_ids d chunks) i = Some key ->
  i < length chunks /\ key = chunk_id d i.
Proof.
  intros H.
  assert (Hi : i < length chunks).
  { rewrite <- (chunk_ids_length d chunks). apply nth_error_Some.
    now rewrite H. }
  split; [exact Hi|].
  unfold chunk_ids in H. rewrite nth_error_map_seq in H by exact Hi.
  now injection H.
Qed.

Lemma firstn_seq_le (n m s : nat) : n <= m -> firstn n (seq s m) = seq s n.
Proof.
  revert m s. induction n as [|n IH]; intros m s Hle; [reflexivity|].
  destruct m as [|m]; [lia|]. simpl. f_equal. apply IH. lia.
Qed.

(** X9. A key names one document and one position: if the same key
    stands at position [i] of an insert for [d] and at position [j] of an
    insert for [d'], then [d = d'] and [i = j].  So the keys of one
    insert are pairwise distinct and those of different documents never
    meet. *)
Theorem chunk_key_identifies_chunk (d d' : string)
        (chunks chunks' : list string) (i j : nat) (key : string) :
  nth_error (chunk_ids d chunks) i = Some key ->
  nth_error (chunk_ids d' chunks') j = Some key ->
  d = d' /\ i = j.
Proof.
  intros H H'.
  apply chunk_ids_nth in H. apply chunk_ids_nth in H'.
  destruct H as [_ ->]. destruct H' as [_ H'].
  now apply chunk_id_inj.
Qed.

Lemma chunk_key_identifies_chunk_witness :
  nth_error (chunk_ids "doc_1" ["a"; "b"]) 1 = Some "doc_1_chunk_1"
  /\ nth_error (chunk_ids "doc_1" ["x"; "y"; "z"]) 1 = Some "doc_1_chunk_1"
  /\ "doc_1" = "doc_1" /\ 1 = 1.
Proof.
  assert (H : nth_error (chunk_ids "doc_1" ["a"; "b"]) 1
              = Some "doc_1_chunk_1") by reflexivity.
  assert (H' : nth_error (chunk_ids "doc_1" ["x"; "y"; "z"]) 1
               = Some "doc_1_chunk_1") by reflexivity.
  split; [exact H|]. split; [exact H'|].
  exact (chunk_key_identifies_chunk _ _ _ _ _ _ _ H H').
Defined.

(** X10. The keys of an insert depend only on the document id and the
    number of chunks: inserting again under the same id reuses the keys
    of the first insert, position by position, so the two collide. *)
Theorem reinsert_reuses_keys (d : string) (first second : list string) :
  length first <= length second ->
  chunk_ids d first = firstn (length first) (chunk_ids d second).
Proof.
  intros Hle. unfold chunk_ids.
  now rewrite firstn_map, firstn_seq_le.
Qed.

Lemma reinsert_reuses_keys_witness :
  length ["a"; "b"] <= length ["x"; "y"; "z"]
  /\ chunk_ids "doc_1" ["a"; "b"]
     = firstn 2 (chunk_ids "doc_1" ["x"; "y"; "z"]).
Proof.
  assert (H : length ["a"; "b"] <= length ["x"; "y"; "z"]) by (simpl; lia).
  split; [exact H|].
  exact (reinsert_reuses_keys "doc_1" ["a"; "b"] ["x"; "y"; "z"] H).
Defined.

(** ** Several documents in one store *)

Section Isolation.

Variable L : libraries.
Hypothesis HL : provider_contract L.

Lemma stored_batch_documents d chunks src :
  map r_document (stored_batch L d chunks src) = chunks.
Proof. unfold stored_batch, chunk_ids, chunk_metadatas. apply batch_documents. Qed.

Lemma stored_batch_filter d chunks src D :
  filter (doc_in D) (stored_batch L d chunks src)
  = if existsb (String.eqb d) D then stored_batch L d chunks src else [].
Proof.
  destruct (existsb (String.eqb d) D) eqn:Hd.
  - apply filter_all. intros x Hx. apply store_batch_in in Hx.
    destruct Hx as (i & t & _ & ->). exact Hd.
  - apply filter_none. intros x Hx. apply store_batch_in in Hx.
    destruct Hx as (i & t & _ & ->). exact Hd.
Qed.

(** A successful insert into a store without chunks of [d] adds the
    batch and nothing else. *)
Lemma store_success_coll d chunks src w :
  chunks <> [] ->
  well_keyed (w_coll w) ->
  no_chunks_for d (w_coll w) ->
  fst (store_document_chunks L d chunks src w)
  = Returns (mk_store_result "success" (length chunks) None) ->
  Permutation (w_coll (snd (store_document_chunks L d chunks src w)))
              (w_coll w ++ stored_batch L d chunks src).
Proof.
  intros Hne Hkey Hnone Hok.
  rewrite (store_document_chunks_run L d chunks src w Hne) in Hok |- *.
  cbv zeta in Hok |- *. unfold stored_batch.
  destruct (coll_add L chunks _ _ (w_coll w)) as [[[]|e] c'] eqn:Hadd;
    [|discriminate Hok].
  cbn [snd w_coll].
  apply (add_stores_batch L HL _ _ _ _ _ Hadd (chunk_ids_NoDup d chunks)).
  intros x Hx Hin. unfold chunk_ids in Hin.
  apply in_map_iff in Hin. destruct Hin as (i & Hi & _).
  rewrite (Hkey x Hx) in Hi. apply chunk_id_inj in Hi.
  destruct Hi as [Hd _]. now apply (Hnone x Hx).
Qed.

(** The bulk fetch returns the texts of the records of the named
    documents, up to order. *)
Lemma get_all_texts D w :
  exists texts w',
    get_all_chunks_for_documents L D w = (Returns texts, w')
    /\ Permutation texts (map r_document (filter (doc_in D) (w_coll w))).
Proof.
  destruct D as [|d ds].
  - exists [], w. split; [reflexivity|].
    rewrite filter_none; [reflexivity | intros x _; reflexivity].
  - unfold get_all_chunks_for_documents, bind, collection_get.
    destruct (get_by_document L HL (d :: ds) (w_coll w))
      as (res & Hget & Hperm).
    rewrite Hget. do 2 eexists. split; [reflexivity | exact Hperm].
Qed.

End Isolation.

(** X11. Documents do not mix.  From a store that holds no chunk of [d1]
    or [d2], after a successful insert of [c1] under [d1] and then of
    [c2] under a different id [d2], the bulk fetch for [d1] returns the
    chunks of [c1], the fetch for [d2] those of [c2], and the fetch for
    both the chunks of both, each up to order. *)
Theorem documents_do_not_mix (L : libraries) (d1 d2 : string)
        (c1 c2 : list string) (s1 s2 : option string) (w : world) :
  provider_contract L ->
  d1 <> d2 ->
  c1 <> [] -> c2 <> [] ->
  well_keyed (w_coll w) ->
  no_chunks_for d1 (w_coll w) ->
  no_chunks_for d2 (w_coll w) ->
  let w1 := snd (store_document_chunks L d1 c1 s1 w) in
  let w2 := snd (store_document_chunks L d2 c2 s2 w1) in
  fst (store_document_chunks L d1 c1 s1 w)
  = Returns (mk_store_result "success" (length c1) None) ->
  fst (store_document_chunks L d2 c2 s2 w1)
  = Returns (mk_store_result "success" (length c2) None) ->
  (exists texts w', get_all_chunks_for_documents L [d1] w2 = (Returns texts, w')
                    /\ Permutation texts c1)
  /\ (exists texts w', get_all_chunks_for_documents L [d2] w2 = (Returns texts, w')
                       /\ Permutation texts c2)
  /\ (exists texts w',
        get_all_chunks_for_documents L [d1; d2] w2 = (Returns texts, w')
        /\ Permutation texts (c1 ++ c2)).
Proof.
  intros HL Hd Hc1 Hc2 Hkey Hn1 Hn2 w1 w2 Hok1 Hok2.
  pose proof (store_success_coll L HL d1 c1 s1 w Hc1 Hkey Hn1 Hok1) as Hp1.
  fold w1 in Hp1.
  assert (Hkey1 : well_keyed (w_coll w1))
    by now apply store_document_chunks_well_keyed.
  assert (Hn21 : no_chunks_for d2 (w_coll w1)).
  { intros r Hr. apply (Permutation_in _ Hp1) in Hr.
    apply in_app_or in Hr. destruct Hr as [Hr | Hr]; [now apply Hn2|].
    apply store_batch_in in Hr. destruct Hr as (i & t & _ & ->).
    simpl. exact Hd. }
  pose proof (store_success_coll L HL d2 c2 s2 w1 Hc2 Hkey1 Hn21 Hok2) as Hp2.
  fold w2 in Hp2.
  assert (Hall : Permutation (w_coll w2)
                   (w_coll w ++ stored_batch L d1 c1 s1
                             ++ stored_batch L d2 c2 s2)).
  { rewrite Hp2, Hp1. now rewrite <- app_assoc. }
  assert (Hsel : forall D,
             (forall x, In x (w_coll w) -> doc_in D x = false) ->
             Permutation
               (map r_document (filter (doc_in D) (w_coll w2)))
               ((if existsb (String.eqb d1) D then c1 else [])
                ++ (if existsb (String.eqb d2) D then c2 else []))).
  { intros D Hold.
    rewrite (filter_Permutation (doc_in D) _ _ Hall).
    rewrite !filter_app, (filter_none _ _ Hold), !stored_batch_filter.
    simpl. rewrite map_app.
    destruct (existsb (String.eqb d1) D), (existsb (String.eqb d2) D);
      simpl; rewrite ?stored_batch_documents; reflexivity. }
  assert (Hneq12 : String.eqb d1 d2 = false) by now apply String.eqb_neq.
  assert (Hneq21 : String.eqb d2 d1 = false)
    by (apply String.eqb_neq; congruence).
  assert (Hold1 : forall x, In x (w_coll w) -> doc_in [d1] x = false).
  { intros x Hx. unfold doc_in. simpl. rewrite orb_false_r.
    apply String.eqb_neq. now apply Hn1. }
  assert (Hold2 : forall x, In x (w_coll w) -> doc_in [d2] x = false).
  { intros x Hx. unfold doc_in. simpl. rewrite orb_false_r.
    apply String.eqb_neq. now apply Hn2. }
  assert (Hold12 : forall x, In x (w_coll w) -> doc_in [d1; d2] x = false).
  { intros x Hx. unfold doc_in. simpl. rewrite orb_false_r.
    apply orb_false_iff. split; apply String.eqb_neq;
      [now apply Hn1 | now apply Hn2]. }
  split; [|split].
  - destruct (get_all_texts L HL [d1] w2) as (texts & w' & Hget & Hperm).
    exists texts, w'. split; [exact Hget|].
    rewrite Hperm, (Hsel [d1] Hold1). simpl.
    rewrite String.eqb_refl, Hneq21. simpl. now rewrite app_nil_r.
  - destruct (get_all_texts L HL [d2] w2) as (texts & w' & Hget & Hperm).
    exists texts, w'. split; [exact Hget|].
    rewrite Hperm, (Hsel [d2] Hold2). simpl.
    rewrite String.eqb_refl, Hneq12. reflexivity.
  - destruct (get_all_texts L HL [d1; d2] w2) as (texts & w' & Hget & Hperm).
    exists texts, w'. split; [exact Hget|].
    rewrite Hperm, (Hsel [d1; d2] Hold12). simpl.
    rewrite !String.eqb_refl, Hneq21. reflexivity.
Qed.

Lemma documents_do_not_mix_witness :
  provider_contract Demo.working
  /\ "doc_a" <> "doc_b"
  /\ well_keyed (w_coll Demo.stocked)
  /\ no_chunks_for "doc_a" (w_coll Demo.stocked)
  /\ no_chunks_for "doc_b" (w_coll Demo.stocked)
  /\ exists texts w',
       get_all_chunks_for_documents Demo.working ["doc_a"]
         (snd (store_document_chunks Demo.working "doc_b" ["b1"] None
                 (snd (store_document_chunks Demo.working "doc_a"
                         ["a1"; "a2"] None Demo.stocked))))
       = (Returns texts, w')
       /\ Permutation texts ["a1"; "a2"].
Proof.
  assert (HL : provider_contract Demo.working) by apply Mem_contract.
  assert (Hd : "doc_a" <> "doc_b") by discriminate.
  assert (Hkey : well_keyed (w_coll Demo.stocked)).
  { intros r [<- | []]. reflexivity. }
  assert (Hna : no_chunks_for "doc_a" (w_coll Demo.stocked)).
  { intros r [<- | []]. simpl. discriminate. }
  assert (Hnb : no_chunks_for "doc_b" (w_coll Demo.stocked)).
  { intros r [<- | []]. simpl. discriminate. }
  assert (Hc1 : ["a1"; "a2"] <> []) by discriminate.
  assert (Hc2 : ["b1"] <> []) by discriminate.
  split; [exact HL|]. split; [exact Hd|]. split; [exact Hkey|].
  split; [exact Hna|]. split; [exact Hnb|].
  exact (proj1 (documents_do_not_mix Demo.working "doc_a" "doc_b"
                  ["a1"; "a2"] ["b1"] None None Demo.stocked
                  HL Hd Hc1 Hc2 Hkey Hna Hnb eq_refl eq_refl)).
Defined.

(** * The speech service *)

Lemma truthy_false_neg (s : string) : s <> "" -> PyStr.truthy s = true.
Proof. destruct s; [congruence | reflexivity]. Qed.

Section SpeechFacts.

Import Speech.

Variable L : speech_libraries.

(** What the except clauses make of an error: they log one record, keep
    the files and the calls, and raise one of three errors. *)
Lemma speech_handlers_raise (e : exn) (w : speech_world) :
  exists e' entry,
    speech_handlers L e w
    = (Raises e', mk_speech_world (s_files w) (s_calls w)
                                  (s_log w ++ [entry]))
    /\ (is_RateLimitError L e = true ->
        e' = mk_exn (LibraryError "RateLimitError")
               "Rate limit exceeded. Please wait before making more requests.")
    /\ (is_RateLimitError L e = false -> is_APIError L e = true ->
        e' = mk_exn (LibraryError "APIError")
                    ("Failed to generate speech: " ++ exn_str e))
    /\ (is_RateLimitError L e = false -> is_APIError L e = false ->
        e' = mk_exn Exception ("Failed to generate speech: " ++ exn_str e)).
Proof.
  unfold speech_handlers.
  destruct (is_RateLimitError L e); [|destruct (is_APIError L e)];
    do 2 eexists; (split; [reflexivity|]);
    repeat split; intros; congruence.
Qed.

(** The run of [generate_speech] on arguments that pass the three
    checks: the API call, then the directory, then the file. *)
Lemma generate_speech_run text voice fname model w :
  PyStr.strip text <> "" -> voice <> "" -> fname <> "" ->
  let log0 := app (s_log w)
                  [(INFO, "Generating speech for text length: "
                          ++ PyStr.of_nat (PyStr.len text) ++ " characters");
                   (INFO, "Using voice ID: " ++ voice)] in
  let calls1 := (s_calls w ++ [CallGenerate text voice model])%list in
  let path := path_join L (PODCAST_DIR L) fname in
  generate_speech L text voice fname model w =
  match generate L text voice model with
  | Raises e => speech_handlers L e (mk_speech_world (s_files w) calls1 log0)
  | Returns audio =>
      let calls2 := (calls1 ++ [CallMkdir (PODCAST_DIR L)])%list in
      match mkdir_parents L (PODCAST_DIR L) (s_files w) with
      | (Raises e, fs1) =>
          speech_handlers L e (mk_speech_world fs1 calls2 log0)
      | (Returns _, fs1) =>
          let calls3 := (calls2 ++ [CallWrite path audio])%list in
          match write_bytes L path audio fs1 with
          | (Raises e, fs2) =>
              speech_handlers L e (mk_speech_world fs2 calls3 log0)
          | (Returns _, fs2) =>
              (Returns path,
               mk_speech_world fs2 calls3
                 (app log0 [(INFO, "Audio saved to: " ++ path)]))
          end
      end
  end.
Proof.
  intros Ht Hv Hf. cbv zeta. unfold generate_speech.
  assert (Htext : text <> "") by (intros ->; now apply Ht).
  apply truthy_false_neg in Ht. apply truthy_false_neg in Htext.
  apply truthy_false_neg in Hv. apply truthy_false_neg in Hf.
  rewrite Ht, Htext, Hv, Hf. cbn [negb orb].
  unfold try_except, bind, logger, call_generate, call_mkdir, call_write.
  cbn [s_files s_calls s_log].
  rewrite <- (app_assoc (s_log w) [_] [_]). cbn [app].
  destruct (generate L text voice model) as [audio|e]; [|reflexivity].
  destruct (mkdir_parents L (PODCAST_DIR L) (s_files w)) as [[u|e] fs1];
    [|reflexivity].
  cbn [s_files s_calls s_log].
  destruct (write_bytes L _ audio fs1) as [[u'|e] fs2]; reflexivity.
Qed.

End SpeechFacts.

(** ** Segment file names *)

Lemma uint_no_underscore (u : Decimal.uint) :
  has_char "_" (NilEmpty.string_of_uint u) = false.
Proof. induction u; simpl; auto. Qed.

Lemma str_of_Z_no_underscore (n : Z) : has_char "_" (str_of_Z n) = false.
Proof.
  unfold str_of_Z. destruct (Z.to_int n); simpl; apply uint_no_underscore.
Qed.

Lemma str_of_Z_inj (n m : Z) : str_of_Z n = str_of_Z m -> n = m.
Proof.
  unfold str_of_Z. intros H. apply DecimalZ.to_int_inj.
  apply (f_equal NilEmpty.int_of_string) in H.
  rewrite !NilEmpty.isi in H. now injection H.
Qed.

(** Splitting at the first occurrence of a character is unambiguous. *)
Lemma split_at_first (c : ascii) (a b x y : string) :
  has_char c a = false -> has_char c b = false ->
  a ++ String c x = b ++ String c y -> a = b /\ x = y.
Proof.
  revert b. induction a as [|u a IH]; intros [|v b] Ha Hb H; simpl in *.
  - injection H as H. now split.
  - injection H as Hc _. subst v. rewrite Ascii.eqb_refl in Hb.
    discriminate Hb.
  - injection H as Hc _. subst u. rewrite Ascii.eqb_refl in Ha.
    discriminate Ha.
  - injection H as Hu H. apply orb_false_iff in Ha, Hb.
    destruct (IH b (proj2 Ha) (proj2 Hb) H) as [-> ->]. now subst.
Qed.

(** X12. Segment file names are unambiguous: two segments get the same
    file name only if they have the same number and the same speaker, so
    distinct segments never overwrite each other's file. *)
Theorem segment_filename_identifies_segment (n m : Z) (s t : string) :
  Speech.segment_filename n s = Speech.segment_filename m t ->
  n = m /\ s = t.
Proof.
  unfold Speech.segment_filename. intros H.
  apply append_inv_head in H.
  change (str_of_Z n ++ String "_" (s ++ ".mp3")
          = str_of_Z m ++ String "_" (t ++ ".mp3")) in H.
  apply split_at_first in H; try apply str_of_Z_no_underscore.
  destruct H as [Hn Hs]. split.
  - now apply str_of_Z_inj.
  - now apply append_inv_tail in Hs.
Qed.

Lemma segment_filename_identifies_segment_witness :
  Speech.segment_filename 3 "host" = "segment_3_host.mp3"
  /\ Speech.segment_filename (-1) "guest" = "segment_-1_guest.mp3"
  /\ (3 = 3 /\ "host" = "host")%Z.
Proof.
  split; [reflexivity|]. split; [reflexivity|].
  exact (segment_filename_identifies_segment 3 3 "host" "host" eq_refl).
Defined.

(** ** [generate_speech] *)

(** The three argument checks of [generate_speech]. *)
Lemma generate_speech_checks
        (L : Speech.speech_libraries) (text voice fname model : string)
        (w : Speech.speech_world) :
  PyStr.strip text = "" \/ voice = "" \/ fname = "" ->
  exists msg,
    Speech.generate_speech L text voice fname model w
    = (Raises (mk_exn ValueError msg), w)
    /\ msg = (if String.eqb (PyStr.strip text) "" then "Text cannot be empty"
              else if String.eqb voice "" then "Voice ID is required"
                   else "Output filename is required").
Proof.
  intros H. unfold Speech.generate_speech.
  destruct (String.eqb_spec (PyStr.strip text) "") as [Ht | Ht].
  - rewrite Ht. simpl. rewrite orb_true_r. now eexists.
  - assert (Htext : text <> "") by (intros ->; now apply Ht).
    rewrite (truthy_false_neg _ Ht), (truthy_false_neg _ Htext).
    cbn [negb orb].
    destruct (String.eqb_spec voice "") as [Hv | Hv].
    + rewrite Hv. now eexists.
    + rewrite (truthy_false_neg _ Hv). cbn [negb].
      destruct H as [H | [H | H]]; [contradiction | contradiction |].
      rewrite H. now eexists.
Qed.

(** X13. [generate_speech] checks its arguments before anything else: a
    text that is empty or only whitespace, then an empty voice id, then
    an empty file name each raise a [ValueError] with their own message,
    in that order of precedence, and then nothing is logged, the speech
    API is not called and no file is touched. *)
Theorem generate_speech_rejects_bad_arguments
        (L : Speech.speech_libraries) (text voice fname model : string)
        (w : Speech.speech_world) :
  PyStr.strip text = "" \/ voice = "" \/ fname = "" ->
  exists msg,
    Speech.generate_speech L text voice fname model w
    = (Raises (mk_exn ValueError msg), w)
    /\ msg = (if String.eqb (PyStr.strip text) "" then "Text cannot be empty"
              else if String.eqb voice "" then "Voice ID is required"
                   else "Output filename is required").
Proof. apply generate_speech_checks. Qed.

Lemma generate_speech_rejects_bad_arguments_witness :
  (PyStr.strip Demo.blank = "" \/ "" = "" \/ "" = "")
  /\ Speech.generate_speech (Speech.mem None None None) Demo.blank "" ""
                            Speech.DEFAULT_MODEL Speech.nothing
     = (Raises (mk_exn ValueError "Text cannot be empty"), Speech.nothing).
Proof.
  assert (H : PyStr.strip Demo.blank = "" \/ "" = "" \/ "" = "")
    by (left; reflexivity).
  split; [exact H|].
  destruct (generate_speech_rejects_bad_arguments (Speech.mem None None None)
              Demo.blank "" "" Speech.DEFAULT_MODEL Speech.nothing H)
    as (msg & Hrun & Hmsg).
  rewrite Hrun, Hmsg. reflexivity.
Defined.

(** X14. On arguments that pass the checks, when the API returns the
    audio, the directory can be made and the file written,
    [generate_speech] returns the path [PODCAST_DIR / output_filename]
    after exactly three calls, in this order: the API with the text, the
    voice and the model as given, [mkdir] on [PODCAST_DIR], and the
    write of the returned audio to that path. *)
Theorem generate_speech_writes_the_audio
        (L : Speech.speech_libraries) (text voice fname model : string)
        (w : Speech.speech_world) (audio : string)
        (fs1 fs2 : Speech.fs_state) :
  PyStr.strip text <> "" -> voice <> "" -> fname <> "" ->
  Speech.generate L text voice model = Returns audio ->
  Speech.mkdir_parents L (Speech.PODCAST_DIR L) (Speech.s_files w)
  = (Returns tt, fs1) ->
  Speech.write_bytes L (Speech.path_join L (Speech.PODCAST_DIR L) fname)
                     audio fs1 = (Returns tt, fs2) ->
  exists w',
    Speech.generate_speech L text voice fname model w
    = (Returns (Speech.path_join L (Speech.PODCAST_DIR L) fname), w')
    /\ Speech.s_files w' = fs2
    /\ Speech.s_calls w'
       = (Speech.s_calls w
          ++ [Speech.CallGenerate text voice model;
              Speech.CallMkdir (Speech.PODCAST_DIR L);
              Speech.CallWrite
                (Speech.path_join L (Speech.PODCAST_DIR L) fname) audio])%list.
Proof.
  intros Ht Hv Hf Hgen Hmk Hwr.
  rewrite (generate_speech_run L text voice fname model w Ht Hv Hf).
  cbv zeta. rewrite Hgen, Hmk, Hwr.
  eexists. split; [reflexivity|]. split; [reflexivity|].
  cbn [Speech.s_calls]. now rewrite <- !app_assoc.
Qed.

Lemma generate_speech_writes_the_audio_witness :
  PyStr.strip "Welcome to the show." <> ""
  /\ exists w',
       Speech.generate_speech (Speech.mem None None None)
         "Welcome to the show." "21m00Tcm4TlvDq8ikWAM" "segment_1_host.mp3"
         Speech.DEFAULT_MODEL Speech.nothing
       = (Returns "podcasts/segment_1_host.mp3", w')
       /\ Speech.s_files w'
          = [("podcasts/segment_1_host.mp3",
              "mp3:21m00Tcm4TlvDq8ikWAM:Welcome to the show.")].
Proof.
  assert (Ht : PyStr.strip "Welcome to the show." <> "")
    by (vm_compute; discriminate).
  split; [exact Ht|].
  destruct (generate_speech_writes_the_audio (Speech.mem None None None)
              "Welcome to the show." "21m00Tcm4TlvDq8ikWAM"
              "segment_1_host.mp3" Speech.DEFAULT_MODEL Speech.nothing
              "mp3:21m00Tcm4TlvDq8ikWAM:Welcome to the show." []
              [("podcasts/segment_1_host.mp3",
                "mp3:21m00Tcm4TlvDq8ikWAM:Welcome to the show.")]
              Ht) as (w' & Hrun & Hfiles & _);
    [discriminate | discriminate | reflexivity | reflexivity | reflexivity |].
  exists w'. split; [exact Hrun | exact Hfiles].
Defined.

(** X15. When the speech API fails, nothing reaches the disk: on
    arguments that pass the checks, if the API raises [e] then
    [generate_speech] raises, the API call is the only call made and the
    files are untouched.  The error raised is a [RateLimitError] with a
    fixed message if [e] is one, else an [APIError] if [e] is one, else a
    plain [Exception], the last two with the message
    "Failed to generate speech: " followed by [str(e)]. *)
Theorem generate_speech_api_failure
        (L : Speech.speech_libraries) (text voice fname model : string)
        (w : Speech.speech_world) (e : exn) :
  PyStr.strip text <> "" -> voice <> "" -> fname <> "" ->
  Speech.generate L text voice model = Raises e ->
  exists e' w',
    Speech.generate_speech L text voice fname model w = (Raises e', w')
    /\ Speech.s_files w' = Speech.s_files w
    /\ Speech.s_calls w'
       = (Speech.s_calls w ++ [Speech.CallGenerate text voice model])%list
    /\ e' = (if Speech.is_RateLimitError L e then
               mk_exn (LibraryError "RateLimitError")
                 "Rate limit exceeded. Please wait before making more requests."
             else if Speech.is_APIError L e then
               mk_exn (LibraryError "APIError")
                      ("Failed to generate speech: " ++ exn_str e)
             else
               mk_exn Exception ("Failed to generate speech: " ++ exn_str e)).
Proof.
  intros Ht Hv Hf Hgen.
  rewrite (generate_speech_run L text voice fname model w Ht Hv Hf).
  cbv zeta. rewrite Hgen.
  match goal with
  | |- context [Speech.speech_handlers L e ?w0] =>
      destruct (speech_handlers_raise L e w0)
        as (e' & entry & Hh & Hrl & Hapi & Hother)
  end.
  rewrite Hh. exists e'. eexists. split; [reflexivity|].
  split; [reflexivity|]. split; [reflexivity|].
  destruct (Speech.is_RateLimitError L e); [now apply Hrl|].
  destruct (Speech.is_APIError L e); [now apply Hapi | now apply Hother].
Qed.

Lemma generate_speech_api_failure_witness :
  PyStr.strip "Welcome to the show." <> ""
  /\ exists w',
       Speech.generate_speech
         (Speech.mem (Some (mk_exn (LibraryError "RateLimitError")
                                   "429 Too Many Requests")) None None)
         "Welcome to the show." "21m00Tcm4TlvDq8ikWAM" "segment_1_host.mp3"
         Speech.DEFAULT_MODEL Speech.nothing
       = (Raises (mk_exn (LibraryError "RateLimitError")
            "Rate limit exceeded. Please wait before making more requests."),
          w')
       /\ Speech.s_files w' = [].
Proof.
  assert (Ht : PyStr.strip "Welcome to the show." <> "")
    by (vm_compute; discriminate).
  split; [exact Ht|].
  destruct (generate_speech_api_failure
              (Speech.mem (Some (mk_exn (LibraryError "RateLimitError")
                                        "429 Too Many Requests")) None None)
              "Welcome to the show." "21m00Tcm4TlvDq8ikWAM"
              "segment_1_host.mp3" Speech.DEFAULT_MODEL Speech.nothing
              (mk_exn (LibraryError "RateLimitError") "429 Too Many Requests")
              Ht) as (e' & w' & Hrun & Hfiles & _ & He');
    [discriminate | discriminate | reflexivity |].
  exists w'. rewrite Hrun, He'. split; [reflexivity | exact Hfiles].
Defined.

(** Every run of [generate_speech] on arguments that pass the checks
    starts with the API call; it returns only after the write, and
    raises only what the except clauses raise. *)
Lemma generate_speech_valid_run
      (L : Speech.speech_libraries) (text voice fname model : string)
      (w : Speech.speech_world) :
  PyStr.strip text <> "" -> voice <> "" -> fname <> "" ->
  exists rest,
    Speech.s_calls (snd (Speech.generate_speech L text voice fname model w))
    = (Speech.s_calls w ++ Speech.CallGenerate text voice model :: rest)%list
    /\ match fst (Speech.generate_speech L text voice fname model w) with
       | Returns path =>
           path = Speech.path_join L (Speech.PODCAST_DIR L) fname
           /\ exists audio,
                Speech.generate L text voice model = Returns audio
                /\ rest = [Speech.CallMkdir (Speech.PODCAST_DIR L);
                           Speech.CallWrite path audio]
       | Raises e' =>
           exn_class e' = LibraryError "RateLimitError"
           \/ exn_class e' = LibraryError "APIError"
           \/ exn_class e' = Exception
       end.
Proof.
  intros Ht Hv Hf.
  rewrite (generate_speech_run L text voice fname model w Ht Hv Hf).
  cbv zeta.
  assert (Hh : forall e w0,
             exists e' entry,
               Speech.speech_handlers L e w0
               = (Raises e',
                  Speech.mk_speech_world (Speech.s_files w0)
                    (Speech.s_calls w0) (Speech.s_log w0 ++ [entry]))
               /\ (exn_class e' = LibraryError "RateLimitError"
                   \/ exn_class e' = LibraryError "APIError"
                   \/ exn_class e' = Exception)).
  { intros e w0.
    destruct (speech_handlers_raise L e w0)
      as (e' & entry & Hrun & Hrl & Hapi & Hother).
    exists e', entry. split; [exact Hrun|].
    destruct (Speech.is_RateLimitError L e);
      [left; now rewrite Hrl|].
    destruct (Speech.is_APIError L e);
      [right; left; now rewrite Hapi | right; right; now rewrite Hother]. }
  destruct (Speech.generate L text voice model) as [audio|e].
  - destruct (Speech.mkdir_parents L (Speech.PODCAST_DIR L)
                                   (Speech.s_files w)) as [[u|e] fs1].
    + destruct (Speech.write_bytes L _ audio fs1) as [[u'|e] fs2].
      * exists [Speech.CallMkdir (Speech.PODCAST_DIR L);
                Speech.CallWrite
                  (Speech.path_join L (Speech.PODCAST_DIR L) fname) audio].
        cbn [fst snd Speech.s_calls]. split; [now rewrite <- !app_assoc|].
        split; [reflexivity|]. now exists audio.
      * match goal with
        | |- context [Speech.speech_handlers L e ?w0] =>
            destruct (Hh e w0) as (e' & entry & Hrun & Hcls)
        end.
        rewrite Hrun. cbn [fst snd Speech.s_calls]. eexists.
        split; [now rewrite <- !app_assoc | exact Hcls].
    + match goal with
      | |- context [Speech.speech_handlers L e ?w0] =>
          destruct (Hh e w0) as (e' & entry & Hrun & Hcls)
      end.
      rewrite Hrun. cbn [fst snd Speech.s_calls]. eexists.
      split; [now rewrite <- !app_assoc | exact Hcls].
  - match goal with
    | |- context [Speech.speech_handlers L e ?w0] =>
        destruct (Hh e w0) as (e' & entry & Hrun & Hcls)
    end.
    rewrite Hrun. cbn [fst snd Speech.s_calls]. exists [].
    split; [reflexivity | exact Hcls].
Qed.

(** X16. Whatever goes wrong, [generate_speech] raises one of four
    classes of error: [ValueError] (the argument checks),
    [RateLimitError], [APIError] or plain [Exception].  An error of any
    other class, such as an [OSError] of the file system, never reaches
    the caller as it is. *)
Theorem generate_speech_error_classes
        (L : Speech.speech_libraries) (text voice fname model : string)
        (w w' : Speech.speech_world) (e' : exn) :
  Speech.generate_speech L text voice fname model w = (Raises e', w') ->
  exn_class e' = ValueError
  \/ exn_class e' = LibraryError "RateLimitError"
  \/ exn_class e' = LibraryError "APIError"
  \/ exn_class e' = Exception.
Proof.
  intros Hrun.
  destruct (String.eqb_spec (PyStr.strip text) "") as [Ht | Ht];
    [|destruct (String.eqb_spec voice "") as [Hv | Hv];
      [|destruct (String.eqb_spec fname "") as [Hf | Hf]]].
  1-3: destruct (generate_speech_checks L text voice fname model w)
         as (msg & Hc & _); [tauto|];
       rewrite Hc in Hrun; apply (f_equal fst) in Hrun; cbn [fst] in Hrun;
       rewrite <- (Raises_inj Hrun); now left.
  destruct (generate_speech_valid_run L text voice fname model w Ht Hv Hf)
    as (rest & _ & Hout).
  rewrite Hrun in Hout. cbn [fst] in Hout. now right.
Qed.

Lemma generate_speech_error_classes_witness :
  Speech.generate_speech Speech.read_only_disk
      "Welcome to the show." "21m00Tcm4TlvDq8ikWAM" "segment_1_host.mp3"
      Speech.DEFAULT_MODEL Speech.nothing
  = (Raises (mk_exn Exception
               "Failed to generate speech: [Errno 13] Permission denied"),
     snd (Speech.generate_speech Speech.read_only_disk
            "Welcome to the show." "21m00Tcm4TlvDq8ikWAM" "segment_1_host.mp3"
            Speech.DEFAULT_MODEL Speech.nothing))
  /\ (Exception = ValueError
      \/ Exception = LibraryError "RateLimitError"
      \/ Exception = LibraryError "APIError"
      \/ Exception = Exception).
Proof.
  assert (Hrun :
            Speech.generate_speech Speech.read_only_disk
              "Welcome to the show." "21m00Tcm4TlvDq8ikWAM"
              "segment_1_host.mp3" Speech.DEFAULT_MODEL Speech.nothing
            = (Raises (mk_exn Exception
                  "Failed to generate speech: [Errno 13] Permission denied"),
               snd (Speech.generate_speech Speech.read_only_disk
                      "Welcome to the show." "21m00Tcm4TlvDq8ikWAM"
                      "segment_1_host.mp3" Speech.DEFAULT_MODEL
                      Speech.nothing)))
    by (vm_compute; reflexivity).
  split; [exact Hrun|].
  exact (generate_speech_error_classes _ _ _ _ _ _ _ _ Hrun).
Defined.

(** X17. A path that [generate_speech] returns names a file it has
    written: whenever it returns, the path is
    [PODCAST_DIR / output_filename], the arguments passed the checks,
    the API returned the audio, and the calls made were the API call,
    [mkdir] on [PODCAST_DIR] and the write of that audio to that path. *)
Theorem generate_speech_returned_path_is_written
        (L : Speech.speech_libraries) (text voice fname model : string)
        (w w' : Speech.speech_world) (path : string) :
  Speech.generate_speech L text voice fname model w = (Returns path, w') ->
  path = Speech.path_join L (Speech.PODCAST_DIR L) fname
  /\ PyStr.strip text <> "" /\ voice <> "" /\ fname <> ""
  /\ exists audio,
       Speech.generate L text voice model = Returns audio
       /\ Speech.s_calls w'
          = (Speech.s_calls w
             ++ [Speech.CallGenerate text voice model;
                 Speech.CallMkdir (Speech.PODCAST_DIR L);
                 Speech.CallWrite path audio])%list.
Proof.
  intros Hrun.
  destruct (String.eqb_spec (PyStr.strip text) "") as [Ht | Ht];
    [|destruct (String.eqb_spec voice "") as [Hv | Hv];
      [|destruct (String.eqb_spec fname "") as [Hf | Hf]]].
  1-3: destruct (generate_speech_checks L text voice fname model w)
         as (msg & Hc & _); [tauto|];
       rewrite Hc in Hrun; discriminate Hrun.
  destruct (generate_speech_valid_run L text voice fname model w Ht Hv Hf)
    as (rest & Hcalls & Hout).
  rewrite Hrun in Hcalls, Hout. cbn [fst snd] in Hcalls, Hout.
  destruct Hout as (Hpath & audio & Hgen & ->).
  split; [exact Hpath|]. repeat (split; [assumption|]).
  exists audio. split; [exact Hgen | exact Hcalls].
Qed.

Lemma generate_speech_returned_path_is_written_witness :
  Speech.generate_speech (Speech.mem None None None)
      "Welcome to the show." "21m00Tcm4TlvDq8ikWAM" "segment_1_host.mp3"
      Speech.DEFAULT_MODEL Speech.nothing
  = (Returns "podcasts/segment_1_host.mp3",
     snd (Speech.generate_speech (Speech.mem None None None)
            "Welcome to the show." "21m00Tcm4TlvDq8ikWAM" "segment_1_host.mp3"
            Speech.DEFAULT_MODEL Speech.nothing))
  /\ "podcasts/segment_1_host.mp3"
     = Speech.path_join (Speech.mem None None None)
         (Speech.PODCAST_DIR (Speech.mem None None None))
         "segment_1_host.mp3".
Proof.
  assert (Hrun :
            Speech.generate_speech (Speech.mem None None None)
              "Welcome to the show." "21m00Tcm4TlvDq8ikWAM"
              "segment_1_host.mp3" Speech.DEFAULT_MODEL Speech.nothing
            = (Returns "podcasts/segment_1_host.mp3",
               snd (Speech.generate_speech (Speech.mem None None None)
                      "Welcome to the show." "21m00Tcm4TlvDq8ikWAM"
                      "segment_1_host.mp3" Speech.DEFAULT_MODEL
                      Speech.nothing)))
    by (vm_compute; reflexivity).
  split; [exact Hrun|].
  exact (proj1 (generate_speech_returned_path_is_written _ _ _ _ _ _ _ _
                  Hrun)).
Defined.

(** ** [generate_podcast_segment] *)

Lemma dict_get_VOICE_CONFIG (speaker : string) :
  Speech.dict_get Speech.VOICE_CONFIG speaker
  = if String.eqb "host" speaker then Some "21m00Tcm4TlvDq8ikWAM"
    else if String.eqb "guest" speaker then Some "EXAVITQu4vr4xnSDxMaL"
         else None.
Proof. reflexivity. Qed.

(** X18. A speaker other than "host" and "guest" is refused before
    anything else is looked at: [generate_podcast_segment] raises a
    [ValueError] that names the speaker, even for an empty text, and
    logs nothing, calls nothing and writes nothing. *)
Theorem podcast_segment_unknown_speaker
        (L : Speech.speech_libraries) (text speaker : string) (n : Z)
        (w : Speech.speech_world) :
  speaker <> "host" -> speaker <> "guest" ->
  Speech.generate_podcast_segment L text speaker n w
  = (Raises (mk_exn ValueError
               ("Speaker must be 'host' or 'guest', got: " ++ speaker)), w).
Proof.
  intros Hh Hg. unfold Speech.generate_podcast_segment.
  rewrite dict_get_VOICE_CONFIG.
  destruct (String.eqb_spec "host" speaker) as [E|_]; [congruence|].
  destruct (String.eqb_spec "guest" speaker) as [E|_]; [congruence|].
  reflexivity.
Qed.

Lemma podcast_segment_unknown_speaker_witness :
  "Host" <> "host" /\ "Host" <> "guest"
  /\ Speech.generate_podcast_segment (Speech.mem None None None)
       "" "Host" 1 Speech.nothing
     = (Raises (mk_exn ValueError
                  "Speaker must be 'host' or 'guest', got: Host"),
        Speech.nothing).
Proof.
  assert (Hh : "Host" <> "host") by discriminate.
  assert (Hg : "Host" <> "guest") by discriminate.
  split; [exact Hh|]. split; [exact Hg|].
  exact (podcast_segment_unknown_speaker (Speech.mem None None None)
           "" "Host" 1 Speech.nothing Hh Hg).
Defined.

(** X19. For the speakers "host" and "guest" and a text that is not
    blank, [generate_podcast_segment] always reaches the speech API, with
    the text, the speaker's configured voice and the default model; if it
    returns, the path is [PODCAST_DIR / "segment_{n}_{speaker}.mp3"], and
    if it raises, the error is not a [ValueError]: the voice and file
    name checks of [generate_speech] cannot fail here. *)
Theorem podcast_segment_uses_speaker_voice
        (L : Speech.speech_libraries) (text speaker : string) (n : Z)
        (w : Speech.speech_world) :
  speaker = "host" \/ speaker = "guest" ->
  PyStr.strip text <> "" ->
  exists rest,
    Speech.s_calls (snd (Speech.generate_podcast_segment L text speaker n w))
    = (Speech.s_calls w
       ++ Speech.CallGenerate text
            (if String.eqb speaker "host" then "21m00Tcm4TlvDq8ikWAM"
             else "EXAVITQu4vr4xnSDxMaL")
            "eleven_turbo_v2" :: rest)%list
    /\ match fst (Speech.generate_podcast_segment L text speaker n w) with
       | Returns path =>
           path = Speech.path_join L (Speech.PODCAST_DIR L)
                    ("segment_" ++ str_of_Z n ++ "_" ++ speaker ++ ".mp3")
       | Raises e => exn_class e <> ValueError
       end.
Proof.
  intros Hs Ht. unfold Speech.generate_podcast_segment.
  assert (Hname : Speech.segment_filename n speaker <> "")
    by (unfold Speech.segment_filename; simpl; discriminate).
  destruct Hs as [-> | ->]; cbn [Speech.dict_get Speech.VOICE_CONFIG
                                  String.eqb Ascii.eqb Bool.eqb].
  - destruct (generate_speech_valid_run L text "21m00Tcm4TlvDq8ikWAM"
                (Speech.segment_filename n "host") Speech.DEFAULT_MODEL w
                Ht ltac:(discriminate) Hname) as (rest & Hcalls & Hout).
    exists rest. split; [exact Hcalls|].
    destruct (fst (Speech.generate_speech L text _ _ _ w)) as [path|e].
    + exact (proj1 Hout).
    + destruct Hout as [H | [H | H]]; rewrite H; discriminate.
  - destruct (generate_speech_valid_run L text "EXAVITQu4vr4xnSDxMaL"
                (Speech.segment_filename n "guest") Speech.DEFAULT_MODEL w
                Ht ltac:(discriminate) Hname) as (rest & Hcalls & Hout).
    exists rest. split; [exact Hcalls|].
    destruct (fst (Speech.generate_speech L text _ _ _ w)) as [path|e].
    + exact (proj1 Hout).
    + destruct Hout as [H | [H | H]]; rewrite H; discriminate.
Qed.

Lemma podcast_segment_uses_speaker_voice_witness :
  ("guest" = "host" \/ "guest" = "guest")
  /\ PyStr.strip "Thanks for having me." <> ""
  /\ exists rest,
       Speech.s_calls
         (snd (Speech.generate_podcast_segment (Speech.mem None None None)
                 "Thanks for having me." "guest" 2 Speech.nothing))
       = Speech.CallGenerate "Thanks for having me." "EXAVITQu4vr4xnSDxMaL"
                             "eleven_turbo_v2" :: rest.
Proof.
  assert (Hs : "guest" = "host" \/ "guest" = "guest") by (right; reflexivity).
  assert (Ht : PyStr.strip "Thanks for having me." <> "")
    by (vm_compute; discriminate).
  split; [exact Hs|]. split; [exact Ht|].
  destruct (podcast_segment_uses_speaker_voice (Speech.mem None None None)
              "Thanks for having me." "guest" 2 Speech.nothing Hs Ht)
    as (rest & Hcalls & _).
  exists rest. exact Hcalls.
Defined.
